(** * ollama_cli: a shallow embedding of [src/ollama_cli.py]

    The program is a small interactive client: it reads prompts, sends the
    conversation to a chat service and renders the answer.  The embedding
    keeps the three things the properties below talk about:

    - the conversation (the Python list [messages]) and the [multiline]
      flag, threaded explicitly through the loop;
    - exceptions ([KeyboardInterrupt], [EOFError], ...) with Python's
      [try]/[except] and context-manager behaviour;
    - what the program does to the outside world (console output, live
      display updates, requests to the chat service), as a trace.

    The outside world is an input of the model: what [session.prompt]
    yields at each iteration, and what [ollama.chat] answers to a request. *)

From Stdlib Require Import String Ascii List Bool ZArith Lia.
Import ListNotations.
Local Open Scope string_scope.

(** ** Python strings

    A [str] is modelled as a Rocq [string] whose characters are the code
    points below 256.  The three [str] methods the program calls are
    written out on that range. *)
Module PyStr.

Definition code (c : ascii) : N := N_of_ascii c.

(** [str.isspace] on one character: TAB..CR, FS..US, SPACE, NEL, NBSP. *)
Definition isspace (c : ascii) : bool :=
  let n := code c in
  ((9 <=? n) && (n <=? 13) || (28 <=? n) && (n <=? 32)
   || (n =? 133) || (n =? 160))%N.

(** [str.lower] on one character: A..Z, and the Latin-1 capitals
    0xC0..0xDE apart from the multiplication sign 0xD7. *)
Definition lower_char (c : ascii) : ascii :=
  let n := code c in
  if ((65 <=? n) && (n <=? 90)
      || (192 <=? n) && (n <=? 222) && negb (n =? 215))%N
  then ascii_of_N (n + 32) else c.

Fixpoint lower (s : string) : string :=
  match s with
  | EmptyString => EmptyString
  | String c s' => String (lower_char c) (lower s')
  end.

Fixpoint lstrip_by (p : ascii -> bool) (s : string) : string :=
  match s with
  | EmptyString => EmptyString
  | String c s' => if p c then lstrip_by p s' else s
  end.

Fixpoint rstrip_by (p : ascii -> bool) (s : string) : string :=
  match s with
  | EmptyString => EmptyString
  | String c s' =>
      match rstrip_by p s' with
      | EmptyString => if p c then EmptyString else String c EmptyString
      | r => String c r
      end
  end.

Definition strip_by (p : ascii -> bool) (s : string) : string :=
  rstrip_by p (lstrip_by p s).

(** [s.strip()]: leading and trailing whitespace removed. *)
Definition strip (s : string) : string := strip_by isspace s.

(** [s.strip(chars)]: leading and trailing characters of [chars] removed. *)
Fixpoint mem (c : ascii) (chars : string) : bool :=
  match chars with
  | EmptyString => false
  | String d chars' => Ascii.eqb c d || mem c chars'
  end.

Definition strip_chars (chars s : string) : string :=
  strip_by (fun c => mem c chars) s.

(** [s.replace(old, new)] for one-character [old] and [new]: every
    occurrence is replaced. *)
Fixpoint replace (old new : ascii) (s : string) : string :=
  match s with
  | EmptyString => EmptyString
  | String c s' =>
      String (if Ascii.eqb c old then new else c) (replace old new s')
  end.

(** Truth value of a [str]: the empty string is false. *)
Definition truthy (s : string) : bool :=
  match s with EmptyString => false | _ => true end.

Fixpoint all (p : ascii -> bool) (s : string) : bool :=
  match s with
  | EmptyString => true
  | String c s' => p c && all p s'
  end.

Definition space_or_hyphen (c : ascii) : bool :=
  isspace c || Ascii.eqb c "-".

Definition nl : string := String (ascii_of_nat 10) EmptyString.
Definition tab : string := String (ascii_of_nat 9) EmptyString.

(** Concatenation of a list of fragments, in order. *)
Fixpoint join (l : list string) : string :=
  match l with
  | [] => EmptyString
  | x :: l' => x ++ join l'
  end.

End PyStr.

(** ** Data model *)

Inductive role := system | user | assistant.

(** A message is the dict [{"role": ..., "content": ...}]. *)
Record message := Message { msg_role : role; content : string }.

(** Exceptions the program meets.  [OtherError] stands for any failure of
    a collaborator (network error, unknown model, ...). *)
Inductive exn :=
| KeyboardInterrupt
| EOFError
| TypeError
| IndexError
| OtherError (name : string).

(** What [ollama.chat] returns: with [stream=False] a dict holding the
    complete text under [["message"]["content"]]; with [stream=True] an
    iterator that yields chunks, each holding a fragment at the same
    place, and then either stops or raises. *)
Inductive response :=
| Dict (full : string)
| Iter (chunks : list string) (stop : option exn).

(** The chat client: a request either raises while the program waits for
    it, or returns a response. *)
Definition chat_client := string -> list message -> bool -> exn + response.

(** ** Effects *)

Inductive renderable :=
| Markup (text style : string)
| Markdown (text : string)
| Syntax (code lexer : string).

Inductive effect :=
| Print (r : renderable)
| StatusEnter
| StatusExit
| Chat (model : string) (messages : list message) (stream : bool)
| LiveEnter (initial : string)
| LiveUpdate (r : renderable)
| LiveExit
| Prompt (multiline : bool).

(** A computation writes a trace and ends with a value or an exception. *)
Definition M (A : Type) : Type := (list effect * (exn + A))%type.

Definition ret {A} (a : A) : M A := ([], inr a).

Definition raise {A} (e : exn) : M A := ([], inl e).

Definition bind {A B} (m : M A) (f : A -> M B) : M B :=
  match m with
  | (w, inl e) => (w, inl e)
  | (w, inr a) => let (w', r) := f a in ((w ++ w')%list, r)
  end.

Definition emit (e : effect) : M unit := ([e], inr tt).

Definition lift {A} (r : exn + A) : M A := ([], r).

(** [with cm: body] for a context manager whose entering and leaving are
    the effects [enter] and [leave]: leaving happens on every exit of the
    body, normal or exceptional, and the exception goes on. *)
Definition with_ctx {A} (enter leave : effect) (body : M A) : M A :=
  let (w, r) := body in ((enter :: w ++ [leave])%list, r).

Declare Scope py_scope.
Delimit Scope py_scope with py.
Notation "x <- m ;; k" := (bind m (fun x => k))
  (at level 100, m at next level, right associativity) : py_scope.
Notation "m ;; k" := (bind m (fun _ => k))
  (at level 100, right associativity) : py_scope.
Local Open Scope py_scope.

(** ** [ask_ollama] *)

Definition interrupted_notice : renderable := Markup "[dim]Interrupted[/dim]" "".

Definition response_header : renderable :=
  Markup (PyStr.nl ++ "Response:") "green".

(** The body of [for chunk in response], over the chunks the iterator
    yields: [content] is the accumulator, re-rendered after each one. *)
Fixpoint for_chunks (chunks : list string) (content : string)
  : list effect * string :=
  match chunks with
  | [] => ([], content)
  | chunk_text :: rest =>
      let content := content ++ chunk_text in
      let (w, final) := for_chunks rest content in
      (LiveUpdate (Markdown content) :: w, final)
  end.

(** What iterating a response gives: the chunks, then how iteration ends.
    A dict iterates over its keys, and indexing a key with ["message"]
    raises [TypeError]. *)
Definition iterate (r : response) : list string * option exn :=
  match r with
  | Iter chunks stop => (chunks, stop)
  | Dict _ => ([], Some TypeError)
  end.

(** The [try: for ... except KeyboardInterrupt: interrupted = True] block.
    The local [content] keeps what was accumulated when the exception
    arrives.  The result is [(content, interrupted)]. *)
Definition try_for_chunks (r : response) : M (string * bool) :=
  let (chunks, stop) := iterate r in
  let (w, content) := for_chunks chunks "" in
  match stop with
  | None => (w, inr (content, false))
  | Some KeyboardInterrupt => (w, inr (content, true))
  | Some e => (w, inl e)
  end.

(** [response["message"]["content"]] on the value [ollama.chat] returned;
    an iterator is not subscriptable. *)
Definition message_content (r : response) : M string :=
  match r with
  | Dict full => ret full
  | Iter _ _ => raise TypeError
  end.

Section Client.

Variable ollama_chat : chat_client.

Definition ask_ollama (model : string) (messages : list message)
    (stream : bool) : M string :=
  response <- with_ctx StatusEnter StatusExit
                (emit (Chat model messages stream) ;;
                 lift (ollama_chat model messages stream)) ;;
  emit (Print response_header) ;;
  if stream then
    r <- with_ctx (LiveEnter "") LiveExit (try_for_chunks response) ;;
    let '(content, interrupted) := r in
    (if interrupted : bool then emit (Print interrupted_notice) else ret tt) ;;
    ret content
  else
    content <- message_content response ;;
    emit (Print (Markdown content)) ;;
    ret content.

(** Values passed at a call site of [ask_ollama]. *)
Inductive pyobj :=
| PyStr (s : string)
| PyList (l : list message)
| PyBool (b : bool)
| PyConsole.

(** A call of [ask_ollama] with positional arguments: the function has
    four required parameters [(model, messages, stream, console)], so a
    call with another number of arguments raises [TypeError] before the
    body runs.  (The second case, four arguments of other types, is not
    produced by [cli].) *)
Definition call_ask_ollama (argv : list pyobj) : M string :=
  match argv with
  | [PyStr model; PyList messages; PyBool stream; PyConsole] =>
      ask_ollama model messages stream
  | [_; _; _; _] => raise TypeError
  | _ => raise TypeError
  end.

(** ** [cli] *)

Definition version_string : string := "0.2.0".

Definition banner : renderable :=
  Markup ("ollama_cli - Ollama powered AI CLI v" ++ version_string)
         "green bold".

(** The parsed command line. *)
Record Args := {
  prompt : option string;
  model : string;
  no_stream : bool;
  version : bool
}.

(** The defaults of the parser. *)
Definition default_args : Args :=
  {| prompt := None; model := "llama2"; no_stream := false;
     version := false |}.

(** What the program reads from its surroundings: the clock, the time
    zone name, the platform, and what each call of [session.prompt]
    yields (a line, or an exception). *)
Record Env := {
  now : string;
  tzname : string;
  platform : string;
  keyboard : list (exn + string)
}.

Definition setup (env : Env) : string :=
  "Help the user by responding to their request, the output should be concise and always written in markdown."
  ++ PyStr.nl ++ "The current date and time is " ++ now env ++ " "
  ++ tzname env ++ "." ++ PyStr.nl ++ "The user is running "
  ++ platform env ++ ".".

(** The state of the interactive loop. *)
Record session := { messages : list message; multiline : bool }.

(** How one iteration of [while True] ends. *)
Inductive flow :=
| Continue (s : session)
| Return (code : Z).

(** How the program ends: [sys.exit(code)], an exception nobody caught,
    or, when the recorded input is used up, the loop about to ask for
    its next line in session [s]. *)
Inductive outcome :=
| Exit (code : Z)
| Uncaught (e : exn)
| Awaiting (s : session).

Definition ident_prompt (text : string) : string :=
  PyStr.replace " " "-" (PyStr.strip_chars " " (PyStr.lower text)).

(** [messages[-1]]. *)
Definition last_message (messages : list message) : M message :=
  match rev messages with
  | [] => raise IndexError
  | m :: _ => ret m
  end.

Definition show_markdown_header : renderable :=
  Markup ("[dim]Last markdown output of last question:[/dim]" ++ PyStr.nl) "".

Definition multiline_on_notice : renderable :=
  Markup "Enabling multiline mode. [dim]Press [Meta+Enter] or [Esc] followed by [Enter] to accept input.[/dim]" "".

Definition multiline_off_notice : renderable :=
  Markup "Disabling multiline mode." "".

(** [session.prompt(..., multiline=multiline)]. *)
Definition session_prompt (multiline : bool) (read : exn + string)
  : M string :=
  emit (Prompt multiline) ;; lift read.

(** What follows a line that is neither blank nor a command. *)
Definition exchange (model : string) (stream : bool) (s : session)
    (text : string) : M flow :=
  let messages := (messages s ++ [Message user text])%list in
  match call_ask_ollama
          [PyStr model; PyList messages; PyBool stream; PyConsole] with
  | (w, inl KeyboardInterrupt) => (w, inr (Return 0))
  | (w, inl e) => (w, inl e)
  | (w, inr content) =>
      (w, inr (Continue {| messages := (messages ++ [Message assistant content])%list;
                           multiline := multiline s |}))
  end.

(** The part of the loop body after a line was read. *)
Definition dispatch (model : string) (stream : bool) (s : session)
    (text : string) : M flow :=
  if negb (PyStr.truthy (PyStr.strip text)) then ret (Continue s)
  else
    let ident_prompt := ident_prompt text in
    if ident_prompt =? "show-markdown" then
      m <- last_message (messages s) ;;
      let last_content := content m in
      emit (Print show_markdown_header) ;;
      emit (Print (Syntax last_content "markdown")) ;;
      ret (Continue s)
    else if ident_prompt =? "multiline" then
      let multiline := negb (multiline s) in
      (if multiline then emit (Print multiline_on_notice)
       else emit (Print multiline_off_notice)) ;;
      ret (Continue {| messages := messages s; multiline := multiline |})
    else
      exchange model stream s text.

(** One iteration of [while True]. *)
Definition loop_body (model : string) (stream : bool) (s : session)
    (read : exn + string) : M flow :=
  match session_prompt (multiline s) read with
  | (w, inl KeyboardInterrupt) | (w, inl EOFError) => (w, inr (Return 0))
  | (w, inl e) => (w, inl e)
  | (w, inr text) =>
      let (w', r) := dispatch model stream s text in ((w ++ w')%list, r)
  end.

Fixpoint cli_loop (model : string) (stream : bool)
    (reads : list (exn + string)) (s : session) : list effect * outcome :=
  match reads with
  | [] => ([], Awaiting s)
  | read :: rest =>
      match loop_body model stream s read with
      | (w, inl e) => (w, Uncaught e)
      | (w, inr (Return code)) => (w, Exit code)
      | (w, inr (Continue s')) =>
          let (w', o) := cli_loop model stream rest s' in ((w ++ w')%list, o)
      end
  end.

(** Truth value of [args.prompt]: [None] and the empty string are false. *)
Definition prompt_given (args : Args) : option string :=
  match prompt args with
  | Some p => if PyStr.truthy p then Some p else None
  | None => None
  end.

Definition cli (args : Args) (env : Env) : list effect * outcome :=
  if version args then ([Print banner], Exit 0)
  else
    let model := model args in
    let stream := negb (no_stream args) in
    let messages := [Message system (setup env)] in
    match prompt_given args with
    | Some p =>
        let messages := (messages ++ [Message user p])%list in
        match call_ask_ollama [PyList messages; PyBool stream; PyConsole] with
        | (w, inl KeyboardInterrupt) => (Print banner :: w, Exit 0)
        | (w, inl e) => (Print banner :: w, Uncaught e)
        | (w, inr _) => (Print banner :: w, Exit 0)
        end
    | None =>
        let (w, o) :=
          cli_loop model stream (keyboard env)
                   {| messages := messages; multiline := false |} in
        (Print banner :: w, o)
    end.

End Client.

(** ** Reading a trace *)

(** The texts shown by [live.update(Markdown(...))], in order. *)
Fixpoint live_renders (w : list effect) : list string :=
  match w with
  | [] => []
  | LiveUpdate (Markdown t) :: w' => t :: live_renders w'
  | _ :: w' => live_renders w'
  end.

(** The texts printed by [console.print(Markdown(...))], in order. *)
Fixpoint markdown_prints (w : list effect) : list string :=
  match w with
  | [] => []
  | Print (Markdown t) :: w' => t :: markdown_prints w'
  | _ :: w' => markdown_prints w'
  end.

(** The conversations sent to the chat client, in order. *)
Fixpoint chat_requests (w : list effect) : list (list message) :=
  match w with
  | [] => []
  | Chat _ msgs _ :: w' => msgs :: chat_requests w'
  | _ :: w' => chat_requests w'
  end.

(** What the live display shows when it is left: the last update, or the
    initial renderable when there was none. *)
Definition live_final (w : list effect) : string := last (live_renders w) "".

(** ** The normal form of a line, as the specification words it

    Stated from the specification, not from the code: the line is
    lower-cased, surrounding whitespace is removed, and its spaces become
    hyphens.  The code's [ident_prompt] removes surrounding spaces only. *)
Definition spec_normal_form (text : string) : string :=
  PyStr.replace " " "-" (PyStr.strip (PyStr.lower text)).

(** A line that is neither blank nor one of the two commands. *)
Definition is_question (text : string) : Prop :=
  PyStr.strip text <> "" /\
  ident_prompt text <> "show-markdown" /\
  ident_prompt text <> "multiline".

(** A line on which the loop makes no request: blank, or a command. *)
Definition quiet (read : exn + string) : Prop :=
  exists text, read = inr text /\
    (PyStr.strip text = "" \/ ident_prompt text = "show-markdown"
     \/ ident_prompt text = "multiline").

(** ** The interrupt signal at the three places where the loop blocks *)

(** Where the signal reaches an iteration: while a line is read, while
    the first byte of the answer to the question [text] is awaited, or
    while its fragments are consumed, [received] being those that came
    before the signal. *)
Inductive interruption :=
| AtRead
| AtFirstByte (text : string)
| AtFragments (text : string) (received : list string).

(** The surroundings of the iteration of session [s] in which the signal
    arrives at [i].  Where the first byte is awaited depends on the mode:
    with [stream=False] the call of [ollama.chat] returns only when the
    whole answer is there, so the wait is inside the call, which raises;
    with [stream=True] the call returns its iterator at once and the
    first byte is awaited by the first step of [for chunk in response],
    so the iterator raises before any fragment. *)
Definition arrives (ollama_chat : chat_client) (model : string)
    (stream : bool) (s : session) (i : interruption) (read : exn + string)
  : Prop :=
  match i with
  | AtRead => read = inl KeyboardInterrupt
  | AtFirstByte text =>
      read = inr text /\ is_question text /\
      ollama_chat model (messages s ++ [Message user text])%list stream
        = (if stream then inr (Iter [] (Some KeyboardInterrupt))
           else inl KeyboardInterrupt)
  | AtFragments text received =>
      read = inr text /\ is_question text /\ stream = true /\
      ollama_chat model (messages s ++ [Message user text])%list stream
        = inr (Iter received (Some KeyboardInterrupt))
  end.



(** ** Properties as the specification states them

    Each is stated for one iteration of the loop, so that it can be
    tested on a concrete one. *)

(** A line whose normal form is a command leaves the conversation as it
    was. *)
Definition command_frame_as_stated (ollama_chat : chat_client)
    (model : string) (stream : bool) (s : session) (text : string) : Prop :=
  spec_normal_form text = "show-markdown" \/
  spec_normal_form text = "multiline" ->
  exists w s',
    loop_body ollama_chat model stream s (inr text) = (w, inr (Continue s'))
    /\ messages s' = messages s.

(** A streaming exchange interrupted among its fragments leaves the
    conversation without an assistant message for that turn. *)
Definition partial_discarded_as_stated (ollama_chat : chat_client)
    (model : string) (s : session) (text : string)
    (received : list string) : Prop :=
  arrives ollama_chat model true s (AtFragments text received) (inr text) ->
  exists w s',
    loop_body ollama_chat model true s (inr text) = (w, inr (Continue s'))
    /\ messages s' = (messages s ++ [Message user text])%list.


(** ** The renders of a streaming run

    What is to hold of a run of [ask_ollama] that consumed [chunks]: it
    returns their concatenation, which is also what the display shows in
    the end; the display was updated once per fragment; update number [i]
    showed the first [i + 1] fragments; every update is a prefix of the
    final text, and of the update after it. *)
Definition renders_in_prefix_order (chunks : list string) (run : M string)
  : Prop :=
  let final := PyStr.join chunks in
  let renders := live_renders (fst run) in
  snd run = inr final /\
  live_final (fst run) = final /\
  List.length renders = List.length chunks /\
  (forall i, i < List.length chunks ->
     nth i renders "" = PyStr.join (firstn (S i) chunks)) /\
  Forall (fun r => String.prefix r final = true) renders /\
  (forall i, S i < List.length chunks ->
     String.prefix (nth i renders "") (nth (S i) renders "") = true).

(** ** [SimpleCodeBlock]

    The renderer of fenced code registered for markdown.  A block holds
    the language tag of the fence, the colour theme and the text of the
    block; rendering it yields three parts in order. *)
Module SimpleCodeBlock.

Record t := { lexer_name : string; theme : string; text : string }.

(** What [__rich_console__] yields: [Text(plain, style=...)], or
    [Syntax(code, lexer, theme=..., background_color=..., word_wrap=...)]. *)
Inductive part :=
| Text (plain style : string)
| SyntaxOf (code lexer theme background_color : string) (word_wrap : bool).

(** [s.rstrip()]: trailing whitespace removed. *)
Definition rstrip (s : string) : string := PyStr.rstrip_by PyStr.isspace s.

Definition rich_console (self : t) : list part :=
  let code := rstrip (text self) in
  [Text (lexer_name self) "dim";
   SyntaxOf code (lexer_name self) (theme self) "default" true;
   Text ("/" ++ lexer_name self) "dim"].

(** The last character of a string, if it has one. *)
Fixpoint last_char (s : string) : option ascii :=
  match s with
  | EmptyString => None
  | String c EmptyString => Some c
  | String _ s' => last_char s'
  end.

End SimpleCodeBlock.

(** ** The shape of a conversation *)

Definition role_eqb (a b : role) : bool :=
  match a, b with
  | system, system | user, user | assistant, assistant => true
  | _, _ => false
  end.

(** A list of messages made of turns: a user message followed by an
    assistant message, any number of times. *)
Fixpoint turns (l : list message) : bool :=
  match l with
  | [] => true
  | u :: a :: l' =>
      role_eqb (msg_role u) user && role_eqb (msg_role a) assistant && turns l'
  | _ => false
  end.

(** The model and the stream flag of the requests of a trace, in order. *)
Fixpoint chat_settings (w : list effect) : list (string * bool) :=
  match w with
  | [] => []
  | Chat model _ stream :: w' => (model, stream) :: chat_settings w'
  | _ :: w' => chat_settings w'
  end.

(** The successive requests of a run that starts with conversation [m]:
    each one is the conversation before it and the new user message, and
    the conversation goes on with the answer. *)
Inductive chain : list message -> list (list message) -> Prop :=
| chain_nil m : chain m []
| chain_cons m t c rs :
    chain (m ++ [Message user t; Message assistant c])%list rs ->
    chain m ((m ++ [Message user t])%list :: rs).

(** A line that is the "multiline" command. *)
Definition multiline_command (read : exn + string) : Prop :=
  exists text, read = inr text /\ ident_prompt text = "multiline".

(** A string of spaces. *)
Definition spaces (s : string) : bool := PyStr.all (fun c => Ascii.eqb c " ") s.

(** ** The questions of a run and what they lead to *)

(** Whether a line is a question, as the loop tests it: not blank, and
    neither of the two commands. *)
Definition is_question_b (text : string) : bool :=
  PyStr.truthy (PyStr.strip text)
  && negb (ident_prompt text =? "show-markdown")
  && negb (ident_prompt text =? "multiline").

(** The question lines among the lines read, in order.  Any exception
    out of [session.prompt] ends the loop, so what follows it is never
    read. *)
Fixpoint questions (reads : list (exn + string)) : list string :=
  match reads with
  | [] => []
  | inl _ :: _ => []
  | inr text :: rest =>
      if is_question_b text then text :: questions rest else questions rest
  end.

(** The conversation reached from [m] when the questions [qs] are asked
    in turn: each is appended verbatim as a user message, followed by the
    text [ask_ollama] returns for the conversation so extended.  [None]
    when one of the exchanges does not return a text. *)
Fixpoint conversation_after (ollama_chat : chat_client) (model : string)
    (stream : bool) (qs : list string) (m : list message)
  : option (list message) :=
  match qs with
  | [] => Some m
  | q :: qs' =>
      let sent := (m ++ [Message user q])%list in
      match snd (ask_ollama ollama_chat model sent stream) with
      | inr c =>
          conversation_after ollama_chat model stream qs'
            (sent ++ [Message assistant c])%list
      | inl _ => None
      end
  end.

(** The requests made for the questions [qs] from conversation [m], up
    to the first exchange that does not return a text. *)
Fixpoint expected_requests (ollama_chat : chat_client) (model : string)
    (stream : bool) (qs : list string) (m : list message)
  : list (list message) :=
  match qs with
  | [] => []
  | q :: qs' =>
      let sent := (m ++ [Message user q])%list in
      sent ::
      match snd (ask_ollama ollama_chat model sent stream) with
      | inr c =>
          expected_requests ollama_chat model stream qs'
            (sent ++ [Message assistant c])%list
      | inl _ => []
      end
  end.

(** ** Concrete surroundings *)

(** A chat client that answers "Hello", in two fragments when streaming. *)
Definition chat_hello : chat_client :=
  fun _ _ stream => inr (if stream then Iter ["Hel"; "lo"] None else Dict "Hello").

(** A chat client whose stream is interrupted after the fragment "Hel". *)
Definition chat_cut : chat_client :=
  fun _ _ _ => inr (Iter ["Hel"] (Some KeyboardInterrupt)).

(** A chat client whose call is interrupted. *)
Definition chat_silent : chat_client :=
  fun _ _ _ => inl KeyboardInterrupt.

(** A chat client whose stream is interrupted before its first fragment. *)
Definition chat_cut_at_once : chat_client :=
  fun _ _ _ => inr (Iter [] (Some KeyboardInterrupt)).

Definition env_linux (keyboard : list (exn + string)) : Env :=
  {| now := "2024-01-01 12:00:00.000000"; tzname := "UTC";
     platform := "linux"; keyboard := keyboard |}.

(** The session the interactive loop starts in. *)
Definition session0 : session :=
  {| messages := [Message system (setup (env_linux []))]; multiline := false |}.

(** The same after one "multiline" command: lines are now read by the
    multi-line editor, in which the Enter key inserts a newline. *)
Definition session_multiline : session :=
  {| messages := messages session0; multiline := true |}.

(** A chat client that cannot reach the service. *)
Definition chat_down : chat_client :=
  fun _ _ _ => inl (OtherError "ConnectionError").

(** A chat client whose stream breaks after the fragment "Hel". *)
Definition chat_broken : chat_client :=
  fun _ _ _ => inr (Iter ["Hel"] (Some (OtherError "ResponseError"))).

(** ** Facts about the string operations *)
Module PyStrFacts.
Import PyStr.

Lemma all_lstrip_by p q s : all q s = true -> all q (lstrip_by p s) = true.
Proof.
  induction s as [|c s IH]; simpl; [easy|].
  intros H. apply andb_true_iff in H as [Hc Hs].
  destruct (p c); [auto|]. simpl. now rewrite Hc, Hs.
Qed.

Lemma all_rstrip_by p q s : all q s = true -> all q (rstrip_by p s) = true.
Proof.
  induction s as [|c s IH]; simpl; [easy|].
  intros H. apply andb_true_iff in H as [Hc Hs].
  specialize (IH Hs).
  destruct (rstrip_by p s) as [|d r].
  - destruct (p c); simpl; [reflexivity|]. now rewrite Hc.
  - change (all q (String c (String d r))) with (q c && all q (String d r)).
    now rewrite Hc, IH.
Qed.

Lemma all_strip_by p q s : all q s = true -> all q (strip_by p s) = true.
Proof. intros H. now apply all_rstrip_by, all_lstrip_by. Qed.

Lemma rstrip_by_empty p s : rstrip_by p s = "" -> all p s = true.
Proof.
  induction s as [|c s IH]; simpl; [easy|].
  destruct (rstrip_by p s) as [|d r]; [|discriminate].
  destruct (p c); [|discriminate]. intros _. now rewrite IH.
Qed.

Lemma all_of_lstrip_by p s : all p (lstrip_by p s) = true -> all p s = true.
Proof.
  induction s as [|c s IH]; simpl; [easy|].
  destruct (p c) eqn:Hc; [auto|]. simpl. now rewrite Hc.
Qed.

(** A line whose [strip()] is empty consists of whitespace. *)
Lemma strip_empty s : strip s = "" -> all isspace s = true.
Proof.
  unfold strip, strip_by. intros H.
  now apply all_of_lstrip_by, rstrip_by_empty.
Qed.

Lemma lstrip_by_all p s : all p s = true -> lstrip_by p s = "".
Proof.
  induction s as [|c s IH]; simpl; [easy|].
  intros H. apply andb_true_iff in H as [Hc Hs]. now rewrite Hc; auto.
Qed.

Lemma all_strip_empty s : all isspace s = true -> strip s = "".
Proof. intros H. unfold strip, strip_by. now rewrite lstrip_by_all. Qed.

Lemma lower_char_space c : isspace c = true -> lower_char c = c.
Proof.
  destruct c as [[|] [|] [|] [|] [|] [|] [|] [|]];
    vm_compute; intros H; solve [reflexivity | discriminate H].
Qed.

Lemma all_space_lower s : all isspace s = true -> lower s = s.
Proof.
  induction s as [|c s IH]; simpl; [easy|].
  intros H. apply andb_true_iff in H as [Hc Hs].
  now rewrite lower_char_space, IH.
Qed.

Lemma all_replace_space s :
  all isspace s = true -> all space_or_hyphen (replace " " "-" s) = true.
Proof.
  induction s as [|c s IH]; simpl; [easy|].
  intros H. apply andb_true_iff in H as [Hc Hs]. rewrite (IH Hs).
  unfold space_or_hyphen.
  destruct (Ascii.eqb c " "); [reflexivity|]. now rewrite Hc.
Qed.

Lemma lstrip_by_split p s :
  exists l, s = l ++ lstrip_by p s /\ all p l = true.
Proof.
  induction s as [|c s (l & E & Hl)]; simpl.
  - now exists "".
  - destruct (p c) eqn:Hc.
    + exists (String c l). simpl. rewrite Hc, Hl. now rewrite <- E.
    + now exists "".
Qed.

Lemma rstrip_by_split p s :
  exists r, s = rstrip_by p s ++ r /\ all p r = true.
Proof.
  induction s as [|c s (r & E & Hr)]; simpl.
  - now exists "".
  - destruct (rstrip_by p s) as [|d x].
    + simpl in E. subst r. destruct (p c) eqn:Hc.
      * exists (String c s). simpl. now rewrite Hc, Hr.
      * now exists s.
    + exists r. simpl in *. now rewrite <- E.
Qed.

Lemma lstrip_by_app_all q l t :
  all q l = true -> lstrip_by q (l ++ t) = lstrip_by q t.
Proof.
  induction l as [|c l IH]; simpl; [easy|].
  intros H. apply andb_true_iff in H as [Hc Hl]. now rewrite Hc; auto.
Qed.

Lemma rstrip_by_all q r : all q r = true -> rstrip_by q r = "".
Proof.
  induction r as [|c r IH]; simpl; [easy|].
  intros H. apply andb_true_iff in H as [Hc Hr]. now rewrite IH, Hc.
Qed.

Lemma rstrip_by_app_all q t r :
  all q r = true -> rstrip_by q (t ++ r) = rstrip_by q t.
Proof.
  intros H. induction t as [|c t IH]; simpl.
  - now apply rstrip_by_all.
  - now rewrite IH.
Qed.

Lemma all_weaken (p q : ascii -> bool) s :
  (forall c, p c = true -> q c = true) -> all p s = true -> all q s = true.
Proof.
  intros Hpq. induction s as [|c s IH]; simpl; [easy|].
  intros H. apply andb_true_iff in H as [Hc Hs]. now rewrite (Hpq _ Hc), IH.
Qed.

(** Stripping a larger class of characters gives the same result when
    the result of stripping the smaller one begins and ends outside
    the larger. *)
Lemma strip_by_larger (p q : ascii -> bool) s c u :
  (forall c, p c = true -> q c = true) ->
  strip_by p s = String c u -> q c = false ->
  rstrip_by q (String c u) = String c u ->
  strip_by q s = String c u.
Proof.
  intros Hpq E Hc Hend. unfold strip_by in *.
  destruct (lstrip_by_split p s) as (l & Es & Hl).
  destruct (rstrip_by_split p (lstrip_by p s)) as (r & Et & Hr).
  rewrite E in Et. rewrite Es, Et.
  rewrite lstrip_by_app_all by (eapply all_weaken; eauto).
  simpl lstrip_by. rewrite Hc.
  change (String c (u ++ r)) with (String c u ++ r).
  rewrite rstrip_by_app_all by (eapply all_weaken; eauto).
  exact Hend.
Qed.
End PyStrFacts.

(** The identifier of a blank line is made of whitespace and hyphens. *)
Lemma ident_prompt_blank text :
  PyStr.strip text = "" ->
  PyStr.all PyStr.space_or_hyphen (ident_prompt text) = true.
Proof.
  intros H. apply PyStrFacts.strip_empty in H. unfold ident_prompt.
  rewrite (PyStrFacts.all_space_lower _ H).
  apply PyStrFacts.all_replace_space.
  now apply PyStrFacts.all_strip_by.
Qed.

(** So a line recognised as a command is not blank. *)
Lemma show_markdown_not_blank text :
  ident_prompt text = "show-markdown" -> PyStr.strip text <> "".
Proof.
  intros H Hb. apply ident_prompt_blank in Hb. rewrite H in Hb.
  vm_compute in Hb. discriminate.
Qed.

Lemma multiline_not_blank text :
  ident_prompt text = "multiline" -> PyStr.strip text <> "".
Proof.
  intros H Hb. apply ident_prompt_blank in Hb. rewrite H in Hb.
  vm_compute in Hb. discriminate.
Qed.

Lemma truthy_false s : PyStr.truthy s = false <-> s = "".
Proof. destruct s; simpl; split; intros; congruence. Qed.

Lemma truthy_true s : PyStr.truthy s = true <-> s <> "".
Proof. destruct s; simpl; split; intros; congruence. Qed.

(** ** Commands in the words of the code and of the specification *)


(** Reading back [replace " " "-"] against a known result, character by
    character. *)
Ltac invert_replace H :=
  repeat match type of H with
  | PyStr.replace _ _ ?u = _ =>
      destruct u as [|? u]; simpl in H; try discriminate H;
      try (injection H as ? H)
  end;
  repeat match goal with
  | Hc : (if Ascii.eqb ?a " " then _ else _) = _ |- _ =>
      destruct (Ascii.eqb_spec a " "); [try discriminate Hc|]; subst
  end.

Lemma replace_multiline_inv u :
  PyStr.replace " " "-" u = "multiline" -> u = "multiline".
Proof. intros H. invert_replace H. reflexivity. Qed.

Lemma replace_show_markdown_inv u :
  PyStr.replace " " "-" u = "show-markdown" ->
  u = "show-markdown" \/ u = "show markdown".
Proof. intros H. invert_replace H; auto. Qed.

Lemma space_is_whitespace c : PyStr.mem c " " = true -> PyStr.isspace c = true.
Proof.
  simpl. rewrite orb_false_r. intros H. apply Ascii.eqb_eq in H. now subst.
Qed.

(** Every line the code takes for a command has the normal form of that
    command in the words of the specification; the converse fails. *)
Lemma command_has_spec_normal_form text c :
  c = "show-markdown" \/ c = "multiline" ->
  ident_prompt text = c -> spec_normal_form text = c.
Proof.
  unfold ident_prompt, spec_normal_form, PyStr.strip, PyStr.strip_chars.
  intros Hc H.
  assert (exists a u,
            PyStr.strip_by (fun c => PyStr.mem c " ") (PyStr.lower text)
              = String a u /\
            PyStr.isspace a = false /\
            PyStr.rstrip_by PyStr.isspace (String a u) = String a u)
    as (a & u & E & Ha & Hend).
  { destruct Hc; subst c.
    - apply replace_show_markdown_inv in H as [H | H]; rewrite H;
        eexists _, _; repeat split.
    - apply replace_multiline_inv in H. rewrite H. eexists _, _; repeat split. }
  rewrite (PyStrFacts.strip_by_larger _ _ _ _ _ space_is_whitespace E Ha Hend).
  now rewrite <- E.
Qed.

Lemma spec_question_is_question text :
  PyStr.strip text <> "" ->
  spec_normal_form text <> "show-markdown" ->
  spec_normal_form text <> "multiline" ->
  is_question text.
Proof.
  intros Hb H1 H2. repeat split; auto; intros H.
  - apply H1. now apply command_has_spec_normal_form; auto.
  - apply H2. now apply command_has_spec_normal_form; auto.
Qed.

(** ** Traces of concatenated computations *)

Lemma live_renders_app w1 w2 :
  live_renders (w1 ++ w2) = (live_renders w1 ++ live_renders w2)%list.
Proof.
  induction w1 as [|e w1 IH]; simpl; [reflexivity|].
  destruct e as [r| | | | |r| |]; try exact IH;
    destruct r; simpl; now rewrite ?IH.
Qed.

Lemma chat_requests_app w1 w2 :
  chat_requests (w1 ++ w2) = (chat_requests w1 ++ chat_requests w2)%list.
Proof.
  induction w1 as [|e w1 IH]; simpl; [reflexivity|].
  destruct e; simpl; now rewrite ?IH.
Qed.

(** ** The loop over the fragments *)

Lemma append_assoc (s t u : string) : (s ++ t) ++ u = s ++ (t ++ u).
Proof. induction s as [|c s IH]; simpl; congruence. Qed.

Lemma join_app l1 l2 : PyStr.join (l1 ++ l2) = PyStr.join l1 ++ PyStr.join l2.
Proof.
  induction l1 as [|x l1 IH]; simpl; [reflexivity|].
  now rewrite IH, append_assoc.
Qed.

Lemma append_empty_r s : s ++ "" = s.
Proof. induction s as [|c s IH]; simpl; congruence. Qed.

Lemma prefix_append s t : String.prefix s (s ++ t) = true.
Proof.
  induction s as [|c s IH]; simpl; [now destruct t|].
  destruct (ascii_dec c c); [exact IH | congruence].
Qed.

(** The accumulator ends as the start value followed by all fragments. *)
Lemma for_chunks_final chunks acc :
  snd (for_chunks chunks acc) = acc ++ PyStr.join chunks.
Proof.
  revert acc. induction chunks as [|c chunks IH]; intros acc; simpl.
  - now rewrite append_empty_r.
  - specialize (IH (acc ++ c)). destruct (for_chunks chunks (acc ++ c)).
    simpl in *. now rewrite IH, append_assoc.
Qed.

(** The loop updates the display once per fragment and does nothing else. *)
Lemma for_chunks_trace chunks acc :
  fst (for_chunks chunks acc) =
  map (fun t => LiveUpdate (Markdown t)) (live_renders (fst (for_chunks chunks acc))).
Proof.
  revert acc. induction chunks as [|c chunks IH]; intros acc; simpl.
  - reflexivity.
  - specialize (IH (acc ++ c)). destruct (for_chunks chunks (acc ++ c)).
    simpl in *. now rewrite <- IH.
Qed.

Lemma for_chunks_count chunks acc :
  List.length (live_renders (fst (for_chunks chunks acc))) = List.length chunks.
Proof.
  revert acc. induction chunks as [|c chunks IH]; intros acc; simpl.
  - reflexivity.
  - specialize (IH (acc ++ c)). destruct (for_chunks chunks (acc ++ c)).
    simpl in *. now rewrite IH.
Qed.

(** The render after fragment number [i] shows the fragments up to it. *)
Lemma for_chunks_nth chunks acc i :
  i < List.length chunks ->
  nth i (live_renders (fst (for_chunks chunks acc))) "" =
  acc ++ PyStr.join (firstn (S i) chunks).
Proof.
  revert acc i. induction chunks as [|c chunks IH]; intros acc i Hi.
  - simpl in Hi. lia.
  - simpl for_chunks. specialize (IH (acc ++ c)).
    destruct (for_chunks chunks (acc ++ c)) as [w final]. simpl fst in *.
    destruct i as [|i].
    + simpl. now rewrite append_empty_r.
    + simpl in Hi. simpl live_renders. simpl nth.
      rewrite IH by lia.
      change (firstn (S (S i)) (c :: chunks)) with (c :: firstn (S i) chunks).
      simpl PyStr.join. now rewrite append_assoc.
Qed.

Lemma for_chunks_no_request chunks acc :
  chat_requests (fst (for_chunks chunks acc)) = [].
Proof.
  revert acc. induction chunks as [|c chunks IH]; intros acc; simpl.
  - reflexivity.
  - specialize (IH (acc ++ c)). destruct (for_chunks chunks (acc ++ c)).
    exact IH.
Qed.

(** ** [ask_ollama], case by case *)

(** Runs the sequencing of a computation as far as its data allow. *)
Ltac run_py :=
  cbv beta iota zeta delta
    [bind with_ctx emit lift ret raise try_for_chunks iterate message_content].

(** How a stream ends, seen from the caller of [ask_ollama]. *)
Lemma ask_ollama_stream chat model msgs chunks stop :
  chat model msgs true = inr (Iter chunks stop) ->
  ask_ollama chat model msgs true =
  (([StatusEnter; Chat model msgs true; StatusExit; Print response_header;
     LiveEnter ""] ++ fst (for_chunks chunks "") ++ LiveExit ::
    match stop with
    | Some KeyboardInterrupt => [Print interrupted_notice]
    | _ => []
    end)%list,
   match stop with
   | None | Some KeyboardInterrupt => inr (PyStr.join chunks)
   | Some e => inl e
   end).
Proof.
  intros H. unfold ask_ollama. rewrite H.
  pose proof (for_chunks_final chunks "") as Hf. run_py.
  destruct (for_chunks chunks "") as [w final]. simpl in Hf. subst final.
  destruct stop as [[]|]; simpl; rewrite <- ?app_assoc; simpl;
    rewrite ?app_nil_r; reflexivity.
Qed.

Lemma ask_ollama_full chat model msgs full :
  chat model msgs false = inr (Dict full) ->
  ask_ollama chat model msgs false =
  ([StatusEnter; Chat model msgs false; StatusExit; Print response_header;
    Print (Markdown full)], inr full).
Proof. intros H. unfold ask_ollama. rewrite H. reflexivity. Qed.

Lemma ask_ollama_wait_raises chat model msgs stream e :
  chat model msgs stream = inl e ->
  ask_ollama chat model msgs stream =
  ([StatusEnter; Chat model msgs stream; StatusExit], inl e).
Proof. intros H. unfold ask_ollama. rewrite H. reflexivity. Qed.

(** Every call of [ask_ollama] makes one request, with the conversation
    it was given. *)
Lemma ask_ollama_one_request chat model msgs stream :
  chat_requests (fst (ask_ollama chat model msgs stream)) = [msgs].
Proof.
  destruct (chat model msgs stream) as [e|[full|chunks stop]] eqn:H.
  - now rewrite (ask_ollama_wait_raises _ _ _ _ _ H).
  - destruct stream.
    + unfold ask_ollama. rewrite H. reflexivity.
    + now rewrite (ask_ollama_full _ _ _ _ H).
  - destruct stream.
    + rewrite (ask_ollama_stream _ _ _ _ _ H). cbn [fst].
      rewrite !chat_requests_app, for_chunks_no_request.
      destruct stop as [[]|]; reflexivity.
    + unfold ask_ollama. rewrite H. reflexivity.
Qed.

(** ** One iteration of the loop *)

Lemma loop_body_line chat model stream s text :
  loop_body chat model stream s (inr text) =
  (Prompt (multiline s) :: fst (dispatch chat model stream s text),
   snd (dispatch chat model stream s text)).
Proof.
  unfold loop_body, session_prompt. run_py.
  now destruct (dispatch chat model stream s text).
Qed.

Lemma loop_body_read_raises chat model stream s e :
  e = KeyboardInterrupt \/ e = EOFError ->
  loop_body chat model stream s (inl e) = ([Prompt (multiline s)], inr (Return 0)).
Proof. intros [-> | ->]; reflexivity. Qed.

Lemma dispatch_blank chat model stream s text :
  PyStr.strip text = "" ->
  dispatch chat model stream s text = ([], inr (Continue s)).
Proof. intros H. unfold dispatch. now rewrite H. Qed.

Lemma dispatch_show_markdown chat model stream s init m text :
  ident_prompt text = "show-markdown" ->
  messages s = (init ++ [m])%list ->
  dispatch chat model stream s text =
  ([Print show_markdown_header; Print (Syntax (content m) "markdown")],
   inr (Continue s)).
Proof.
  intros H Hm. unfold dispatch.
  rewrite (proj2 (truthy_true _) (show_markdown_not_blank _ H)).
  rewrite H. unfold last_message. rewrite Hm, rev_app_distr. reflexivity.
Qed.

Lemma dispatch_multiline chat model stream s text :
  ident_prompt text = "multiline" ->
  dispatch chat model stream s text =
  ([Print (if negb (multiline s) then multiline_on_notice
           else multiline_off_notice)],
   inr (Continue {| messages := messages s;
                    multiline := negb (multiline s) |})).
Proof.
  intros H. unfold dispatch.
  rewrite (proj2 (truthy_true _) (multiline_not_blank _ H)).
  rewrite H. now destruct (multiline s).
Qed.

Lemma dispatch_question chat model stream s text :
  is_question text ->
  dispatch chat model stream s text = exchange chat model stream s text.
Proof.
  intros (Hb & H1 & H2). unfold dispatch.
  rewrite (proj2 (truthy_true _) Hb).
  apply String.eqb_neq in H1, H2. now rewrite H1, H2.
Qed.

(** A command makes no request and keeps the conversation. *)
Lemma dispatch_command chat model stream s text :
  messages s <> [] ->
  ident_prompt text = "show-markdown" \/ ident_prompt text = "multiline" ->
  exists w s',
    dispatch chat model stream s text = (w, inr (Continue s')) /\
    messages s' = messages s /\ chat_requests w = [].
Proof.
  intros Hne [H | H].
  - destruct (exists_last Hne) as (init & m & Hm).
    rewrite (dispatch_show_markdown _ _ _ _ _ _ _ H Hm). now eexists _, _.
  - rewrite (dispatch_multiline _ _ _ _ _ H). now eexists _, _.
Qed.

(** ** Several iterations *)

Lemma cli_loop_app chat model stream pre rest s w s' :
  cli_loop chat model stream pre s = (w, Awaiting s') ->
  cli_loop chat model stream (pre ++ rest) s =
  ((w ++ fst (cli_loop chat model stream rest s'))%list,
   snd (cli_loop chat model stream rest s')).
Proof.
  revert s w. induction pre as [|read pre IH]; intros s w H.
  - simpl in H. injection H as <- <-. simpl.
    now destruct (cli_loop chat model stream rest s).
  - simpl in *.
    destruct (loop_body chat model stream s read) as [w1 [e|[s1|code]]];
      try discriminate.
    destruct (cli_loop chat model stream pre s1) as [w2 o] eqn:E.
    injection H as <- ->.
    rewrite (IH _ _ E). now rewrite app_assoc.
Qed.

(** Blank lines and commands keep the loop running and the conversation
    as it is. *)
Lemma cli_loop_quiet chat model stream pre s :
  Forall quiet pre -> messages s <> [] ->
  exists w s',
    cli_loop chat model stream pre s = (w, Awaiting s') /\
    messages s' = messages s /\ chat_requests w = [].
Proof.
  intros Hq. revert s. induction Hq as [|read pre (text & -> & Hr) _ IH];
    intros s Hne.
  - now exists [], s.
  - assert (exists w1 s1,
      loop_body chat model stream s (inr text) = (w1, inr (Continue s1)) /\
      messages s1 = messages s /\ chat_requests w1 = []) as (w1 & s1 & E & Hm & Hw).
    { rewrite loop_body_line. destruct Hr as [Hb | Hc].
      - rewrite (dispatch_blank _ _ _ _ _ Hb). now eexists _, _.
      - destruct (dispatch_command chat model stream s text Hne Hc)
          as (w & s1 & -> & Hm & Hw). now eexists _, _. }
    destruct (IH s1) as (w2 & s2 & E2 & Hm2 & Hw2); [congruence|].
    exists (w1 ++ w2)%list, s2. simpl. rewrite E, E2.
    repeat split; [congruence|]. now rewrite chat_requests_app, Hw, Hw2.
Qed.

(** ** Streaming and non-streaming exchanges *)

Lemma join_firstn_prefix n m (l : list string) :
  n <= m ->
  String.prefix (PyStr.join (firstn n l)) (PyStr.join (firstn m l)) = true.
Proof.
  intros H.
  rewrite <- (firstn_skipn n (firstn m l)), firstn_firstn, join_app.
  replace (Nat.min n m) with n by lia. apply prefix_append.
Qed.

Lemma last_as_nth (l : list string) d :
  last l d = nth (List.length l - 1) l d.
Proof.
  induction l as [|x l IH]; [reflexivity|].
  destruct l as [|y l]; [reflexivity|].
  change (last (x :: y :: l) d) with (last (y :: l) d). rewrite IH.
  simpl. now rewrite Nat.sub_0_r.
Qed.

(** C5. A streaming exchange whose stream of fragments ends normally
    returns the concatenation of the fragments in arrival order; the
    display is updated after each fragment with the text accumulated so
    far, so every intermediate render is a prefix of the final text and
    of the render that follows it, and the last one is the final text. *)
Theorem streaming_renders_growing_prefixes chat model msgs chunks :
  chat model msgs true = inr (Iter chunks None) ->
  renders_in_prefix_order chunks (ask_ollama chat model msgs true).
Proof.
  intros H. unfold renders_in_prefix_order, live_final.
  rewrite (ask_ollama_stream _ _ _ _ _ H). cbn [fst snd].
  rewrite !live_renders_app. cbn [live_renders app].
  rewrite app_nil_r.
  set (renders := live_renders (fst (for_chunks chunks ""))).
  assert (Hlen : List.length renders = List.length chunks)
    by apply for_chunks_count.
  assert (Hnth : forall i, i < List.length chunks ->
            nth i renders "" = PyStr.join (firstn (S i) chunks)).
  { intros i Hi. unfold renders. now rewrite for_chunks_nth. }
  repeat split; auto.
  - rewrite last_as_nth, Hlen. destruct chunks as [|c chunks].
    + reflexivity.
    + rewrite Hnth by (simpl; lia).
      replace (S (List.length (c :: chunks) - 1)) with (List.length (c :: chunks))
        by (simpl; lia).
      now rewrite firstn_all.
  - apply Forall_forall. intros r Hr.
    destruct (In_nth _ _ "" Hr) as (i & Hi & <-).
    rewrite Hnth by lia.
    rewrite <- (firstn_all chunks) at 2. apply join_firstn_prefix. lia.
  - intros i Hi. rewrite !Hnth by lia. apply join_firstn_prefix. lia.
Qed.

Lemma streaming_renders_growing_prefixes_witness :
  chat_hello "llama2" [] true = inr (Iter ["Hel"; "lo"] None) /\
  renders_in_prefix_order ["Hel"; "lo"] (ask_ollama chat_hello "llama2" [] true).
Proof.
  split; [reflexivity|].
  apply (streaming_renders_growing_prefixes chat_hello "llama2" [] ["Hel"; "lo"]).
  reflexivity.
Defined.

(** The example of the specification: fragments "Hel" and "lo". *)
Example streaming_hello :
  ask_ollama chat_hello "llama2" [] true =
  ([StatusEnter; Chat "llama2" [] true; StatusExit; Print response_header;
    LiveEnter ""; LiveUpdate (Markdown "Hel"); LiveUpdate (Markdown "Hello");
    LiveExit], inr "Hello").
Proof. reflexivity. Qed.

(** C6. A non-streaming exchange prints the complete response text once,
    as markdown, and returns that text unchanged. *)
Theorem non_streaming_renders_once chat model msgs full :
  chat model msgs false = inr (Dict full) ->
  ask_ollama chat model msgs false =
    ([StatusEnter; Chat model msgs false; StatusExit; Print response_header;
      Print (Markdown full)], inr full) /\
  markdown_prints (fst (ask_ollama chat model msgs false)) = [full] /\
  live_renders (fst (ask_ollama chat model msgs false)) = [].
Proof.
  intros H. rewrite (ask_ollama_full _ _ _ _ H). repeat split.
Qed.

Lemma non_streaming_renders_once_witness :
  chat_hello "llama2" [] false = inr (Dict "Hello") /\
  (ask_ollama chat_hello "llama2" [] false =
     ([StatusEnter; Chat "llama2" [] false; StatusExit; Print response_header;
       Print (Markdown "Hello")], inr "Hello") /\
   markdown_prints (fst (ask_ollama chat_hello "llama2" [] false)) = ["Hello"] /\
   live_renders (fst (ask_ollama chat_hello "llama2" [] false)) = []).
Proof.
  split; [reflexivity|].
  apply (non_streaming_renders_once chat_hello "llama2" [] "Hello").
  reflexivity.
Defined.

(** ** Commands *)

(** C3, as the code has it.  A line that the loop recognises as a command
    (its [ident_prompt]: lower-cased, surrounding space characters
    removed, every remaining space replaced by a hyphen, equals
    "show-markdown" or "multiline") leaves the conversation unchanged and
    sends nothing to the chat client. *)
Theorem command_keeps_conversation chat model stream s text :
  messages s <> [] ->
  ident_prompt text = "show-markdown" \/ ident_prompt text = "multiline" ->
  exists w s',
    loop_body chat model stream s (inr text) = (w, inr (Continue s')) /\
    messages s' = messages s /\ chat_requests w = [].
Proof.
  intros Hne Hc. rewrite loop_body_line.
  destruct (dispatch_command chat model stream s text Hne Hc)
    as (w & s' & -> & Hm & Hw).
  now eexists _, _.
Qed.

Lemma command_keeps_conversation_witness :
  messages session0 <> [] /\
  (ident_prompt " Show Markdown " = "show-markdown" \/
   ident_prompt " Show Markdown " = "multiline") /\
  exists w s',
    loop_body chat_hello "llama2" true session0 (inr " Show Markdown ")
      = (w, inr (Continue s')) /\
    messages s' = messages session0 /\ chat_requests w = [].
Proof.
  split; [discriminate|]. split; [left; reflexivity|].
  apply (command_keeps_conversation chat_hello "llama2" true session0
           " Show Markdown ").
  - discriminate.
  - left. reflexivity.
Defined.

(** C3, as the specification states it, fails on the line "multiline"
    followed by a newline, as the multi-line editor delivers it when
    Enter was pressed before the line was accepted.  Its normal form with
    surrounding whitespace removed is "multiline"; the code removes
    surrounding spaces only, takes the line for a question and appends it
    and the answer to the conversation. *)
Lemma command_frame_as_stated_counterexample :
  ~ command_frame_as_stated chat_hello "llama2" true session_multiline
      ("multiline" ++ PyStr.nl).
Proof.
  unfold command_frame_as_stated. intros H.
  destruct H as (w & s' & E & Hm); [right; reflexivity|].
  vm_compute in E. injection E as _ <-. discriminate Hm.
Qed.

(** What the loop does on that line. *)
Example newline_after_multiline_is_a_question :
  spec_normal_form ("multiline" ++ PyStr.nl) = "multiline" /\
  ident_prompt ("multiline" ++ PyStr.nl) = "multiline" ++ PyStr.nl /\
  snd (loop_body chat_hello "llama2" true session_multiline
         (inr ("multiline" ++ PyStr.nl))) =
  inr (Continue
         {| messages :=
              [Message system (setup (env_linux []));
               Message user ("multiline" ++ PyStr.nl);
               Message assistant "Hello"];
            multiline := true |}).
Proof. repeat split. Qed.

(** C7. Two "multiline" commands in succession bring the session back to
    what it was: the flag has its original value and the conversation is
    unchanged; nothing is sent to the chat client.  After the first of
    them the flag is the negation of the original. *)
Theorem multiline_twice_restores_session chat model stream s t1 t2 :
  ident_prompt t1 = "multiline" ->
  ident_prompt t2 = "multiline" ->
  (exists w1,
     loop_body chat model stream s (inr t1) =
     (w1, inr (Continue {| messages := messages s;
                           multiline := negb (multiline s) |}))) /\
  (exists w,
     cli_loop chat model stream [inr t1; inr t2] s = (w, Awaiting s) /\
     chat_requests w = []).
Proof.
  intros H1 H2. split.
  - rewrite loop_body_line, (dispatch_multiline _ _ _ _ _ H1). now eexists.
  - cbn [cli_loop].
    rewrite loop_body_line, (dispatch_multiline _ _ _ _ _ H1). cbn [fst snd].
    rewrite loop_body_line, (dispatch_multiline _ _ _ _ _ H2).
    cbn [fst snd messages multiline].
    rewrite negb_involutive. destruct s as [msgs ml]. now eexists.
Qed.

Lemma multiline_twice_restores_session_witness :
  ident_prompt "multiline" = "multiline" /\
  ident_prompt " MultiLine" = "multiline" /\
  exists w,
    cli_loop chat_hello "llama2" true [inr "multiline"; inr " MultiLine"] session0
      = (w, Awaiting session0) /\
    chat_requests w = [].
Proof.
  split; [reflexivity|]. split; [reflexivity|].
  apply (multiline_twice_restores_session chat_hello "llama2" true session0
           "multiline" " MultiLine"); reflexivity.
Defined.

(** ** Questions *)

Lemma loop_body_question chat model stream s text :
  is_question text ->
  loop_body chat model stream s (inr text) =
  (Prompt (multiline s) :: fst (exchange chat model stream s text),
   snd (exchange chat model stream s text)).
Proof. intros H. now rewrite loop_body_line, dispatch_question. Qed.

Lemma exchange_requests chat model stream s text :
  chat_requests (fst (exchange chat model stream s text)) =
  [(messages s ++ [Message user text])%list].
Proof.
  unfold exchange, call_ask_ollama.
  pose proof (ask_ollama_one_request chat model
                (messages s ++ [Message user text]) stream) as H.
  destruct (ask_ollama chat model (messages s ++ [Message user text]) stream)
    as [w [[]|c]]; exact H.
Qed.

Lemma exchange_returns chat model stream s text w c :
  ask_ollama chat model (messages s ++ [Message user text]) stream = (w, inr c) ->
  exchange chat model stream s text =
  (w, inr (Continue
             {| messages := (messages s ++ [Message user text; Message assistant c])%list;
                multiline := multiline s |})).
Proof.
  intros H. unfold exchange, call_ask_ollama. rewrite H.
  now rewrite <- app_assoc.
Qed.

(** C4. A blank line changes nothing and the loop goes on.  A line that
    is neither blank nor a command is appended as one user message: the
    chat client is asked once, with the conversation so extended; and
    when the exchange returns a text, that text is appended as one
    assistant message and the loop goes on. *)
Theorem question_grows_conversation chat model stream s text :
  (PyStr.strip text = "" ->
   loop_body chat model stream s (inr text) =
   ([Prompt (multiline s)], inr (Continue s))) /\
  (is_question text ->
   chat_requests (fst (loop_body chat model stream s (inr text))) =
     [(messages s ++ [Message user text])%list] /\
   forall w c,
     ask_ollama chat model (messages s ++ [Message user text]) stream
       = (w, inr c) ->
     loop_body chat model stream s (inr text) =
     (Prompt (multiline s) :: w,
      inr (Continue
             {| messages :=
                  (messages s ++ [Message user text; Message assistant c])%list;
                multiline := multiline s |}))).
Proof.
  split.
  - intros H. now rewrite loop_body_line, dispatch_blank.
  - intros H. rewrite (loop_body_question _ _ _ _ _ H). split.
    + cbn [fst chat_requests]. apply exchange_requests.
    + intros w c E. now rewrite (exchange_returns _ _ _ _ _ _ _ E).
Qed.

Lemma question_grows_conversation_witness :
  (PyStr.strip (" " ++ PyStr.tab) = "" /\
   loop_body chat_hello "llama2" true session0 (inr (" " ++ PyStr.tab)) =
   ([Prompt false], inr (Continue session0))) /\
  (is_question "Hi there" /\
   chat_requests (fst (loop_body chat_hello "llama2" true session0 (inr "Hi there")))
     = [(messages session0 ++ [Message user "Hi there"])%list] /\
   snd (loop_body chat_hello "llama2" true session0 (inr "Hi there")) =
   inr (Continue
          {| messages :=
               (messages session0 ++
                [Message user "Hi there"; Message assistant "Hello"])%list;
             multiline := false |})).
Proof.
  pose proof (question_grows_conversation chat_hello "llama2" true session0
                (" " ++ PyStr.tab)) as [Hblank _].
  pose proof (question_grows_conversation chat_hello "llama2" true session0
                "Hi there") as [_ Hq].
  assert (Q : is_question "Hi there") by (repeat split; discriminate).
  split.
  - split; [reflexivity|]. apply Hblank. reflexivity.
  - split; [exact Q|]. destruct (Hq Q) as [Hreq Hok].
    split; [exact Hreq|]. erewrite Hok; reflexivity.
Defined.

(** ** Leaving the loop *)

(** C8. While the loop is running and asks for a new line, end of input
    or an interrupt makes the program return exit code 0, whatever input
    would have followed, and nothing more is done. *)
Theorem loop_exits_zero_on_eof_or_interrupt
    chat model stream pre read rest s w s' :
  cli_loop chat model stream pre s = (w, Awaiting s') ->
  read = inl EOFError \/ read = inl KeyboardInterrupt ->
  cli_loop chat model stream (pre ++ read :: rest) s =
  ((w ++ [Prompt (multiline s')])%list, Exit 0).
Proof.
  intros Hpre Hread. rewrite (cli_loop_app _ _ _ _ _ _ _ _ Hpre).
  cbn [cli_loop].
  destruct Hread as [-> | ->];
    rewrite loop_body_read_raises by auto; reflexivity.
Qed.

Lemma loop_exits_zero_on_eof_or_interrupt_witness :
  cli_loop chat_hello "llama2" true [inr "multiline"] session0 =
    ([Prompt false; Print multiline_on_notice],
     Awaiting {| messages := messages session0; multiline := true |}) /\
  cli_loop chat_hello "llama2" true
    ([inr "multiline"] ++ inl EOFError :: [inr "never read"]) session0 =
    (([Prompt false; Print multiline_on_notice] ++ [Prompt true])%list, Exit 0).
Proof.
  split; [reflexivity|].
  apply (loop_exits_zero_on_eof_or_interrupt chat_hello "llama2" true
           [inr "multiline"] (inl EOFError) [inr "never read"] session0
           [Prompt false; Print multiline_on_notice]
           {| messages := messages session0; multiline := true |}).
  - reflexivity.
  - left. reflexivity.
Defined.

(** The same for the whole program started without a prompt argument. *)
Corollary cli_exits_zero_on_first_eof chat env rest :
  keyboard env = inl EOFError :: rest ->
  cli chat default_args env = ([Print banner; Prompt false], Exit 0).
Proof. intros H. unfold cli. simpl. now rewrite H. Qed.

(** ** The interrupt signal *)


(** The notice printed when a stream is cut short. *)
Lemma interrupted_stream_notice chat model msgs received :
  chat model msgs true = inr (Iter received (Some KeyboardInterrupt)) ->
  In (Print interrupted_notice) (fst (ask_ollama chat model msgs true)).
Proof.
  intros H. rewrite (ask_ollama_stream _ _ _ _ _ H). cbn [fst].
  apply in_or_app. right. apply in_or_app. right. simpl. auto.
Qed.

(** C2, as the code has it.  When the interrupt arrives while the
    fragments of a streaming exchange are consumed, the exchange ends
    normally: an "Interrupted" notice is printed, and the text accumulated
    from the fragments received before the signal is appended to the
    conversation as the assistant message of that turn; the loop goes on. *)
Theorem interrupted_stream_keeps_partial_text chat model s text received :
  arrives chat model true s (AtFragments text received) (inr text) ->
  exists w,
    loop_body chat model true s (inr text) =
    (w, inr (Continue
               {| messages :=
                    (messages s ++ [Message user text;
                                    Message assistant (PyStr.join received)])%list;
                  multiline := multiline s |})) /\
    In (Print interrupted_notice) w.
Proof.
  intros (_ & Hq & _ & Hc). rewrite (loop_body_question _ _ _ _ _ Hq).
  pose proof (interrupted_stream_notice _ _ _ _ Hc) as Hn.
  erewrite exchange_returns by exact (ask_ollama_stream _ _ _ _ _ Hc).
  rewrite (ask_ollama_stream _ _ _ _ _ Hc) in Hn.
  eexists. split; [reflexivity|]. cbn [fst snd] in *. now right.
Qed.

Lemma interrupted_stream_keeps_partial_text_witness :
  arrives chat_cut "llama2" true session0 (AtFragments "Hi" ["Hel"]) (inr "Hi") /\
  exists w,
    loop_body chat_cut "llama2" true session0 (inr "Hi") =
    (w, inr (Continue
               {| messages :=
                    (messages session0 ++ [Message user "Hi";
                                           Message assistant (PyStr.join ["Hel"])])%list;
                  multiline := multiline session0 |})) /\
    In (Print interrupted_notice) w.
Proof.
  assert (A : arrives chat_cut "llama2" true session0
                (AtFragments "Hi" ["Hel"]) (inr "Hi")).
  { simpl. repeat split; discriminate. }
  split; [exact A|].
  apply (interrupted_stream_keeps_partial_text chat_cut "llama2" session0
           "Hi" ["Hel"] A).
Defined.

(** C2, as the specification states it, fails: after the fragment "Hel"
    and the interrupt, the conversation ends with the assistant message
    "Hel". *)
Lemma partial_discarded_as_stated_counterexample :
  ~ partial_discarded_as_stated chat_cut "llama2" session0 "Hi" ["Hel"].
Proof.
  unfold partial_discarded_as_stated. intros H.
  destruct H as (w & s' & E & Hm).
  { simpl. repeat split; discriminate. }
  vm_compute in E. injection E as _ <-. discriminate Hm.
Qed.




(** The same without streaming, while the answer is awaited inside the
    call of [ollama.chat]. *)
Example interrupt_before_first_byte_returns :
  cli chat_silent
    {| prompt := None; model := "llama2"; no_stream := true; version := false |}
    (env_linux [inr "Hi"; inr "never read"]) =
  ([Print banner; Prompt false; StatusEnter;
    Chat "llama2" [Message system (setup (env_linux [])); Message user "Hi"] false;
    StatusExit], Exit 0).
Proof. reflexivity. Qed.

(** With streaming, an interrupt before the first fragment is absorbed:
    an empty answer is recorded and the next line is read. *)
Example interrupt_before_first_fragment_goes_on :
  cli chat_cut_at_once default_args (env_linux [inr "Hi"; inl EOFError]) =
  ([Print banner; Prompt false; StatusEnter;
    Chat "llama2" [Message system (setup (env_linux [])); Message user "Hi"] true;
    StatusExit; Print response_header; LiveEnter ""; LiveExit;
    Print interrupted_notice; Prompt false], Exit 0).
Proof. reflexivity. Qed.

(** ** [show-markdown] *)

(** C10. The command "show-markdown" displays the content of the last
    message of the conversation, whatever its role.  So when it is issued
    in the interactive loop before any exchange (only blank lines and
    commands came before it), what is displayed is the system message
    built at start-up, the only message of the conversation. *)
Theorem show_markdown_before_exchange_shows_setup
    chat args env pre text rest :
  version args = false ->
  prompt_given args = None ->
  keyboard env = (pre ++ inr text :: rest)%list ->
  Forall quiet pre ->
  ident_prompt text = "show-markdown" ->
  (forall model stream s init m,
     messages s = (init ++ [m])%list ->
     loop_body chat model stream s (inr text) =
     ([Prompt (multiline s); Print show_markdown_header;
       Print (Syntax (content m) "markdown")], inr (Continue s))) /\
  exists w ml w',
    fst (cli chat args env) =
      (Print banner :: w ++
       [Prompt ml; Print show_markdown_header;
        Print (Syntax (setup env) "markdown")] ++ w')%list /\
    chat_requests w = [].
Proof.
  intros Hv Hp Hk Hq Ht. split.
  - intros model stream s init m Hm.
    now rewrite loop_body_line, (dispatch_show_markdown _ _ _ _ _ _ _ Ht Hm).
  - unfold cli. rewrite Hv, Hp, Hk.
    set (s0 := {| messages := [Message system (setup env)];
                  multiline := false |}).
    destruct (cli_loop_quiet chat (model args) (negb (no_stream args)) pre s0 Hq)
      as (w & s1 & E & Hm & Hw); [discriminate|].
    rewrite (cli_loop_app _ _ _ _ _ _ _ _ E). cbn [cli_loop].
    rewrite loop_body_line.
    rewrite (dispatch_show_markdown _ _ _ _ [] (Message system (setup env)) _ Ht)
      by exact Hm.
    cbn [fst snd content].
    destruct (cli_loop chat (model args) (negb (no_stream args)) rest s1)
      as [w' o].
    exists w, (multiline s1), w'. split; [|exact Hw].
    reflexivity.
Qed.

Lemma show_markdown_before_exchange_shows_setup_witness :
  Forall quiet [inr "  "; inr "multiline"] /\
  ident_prompt "Show-Markdown" = "show-markdown" /\
  exists w ml w',
    fst (cli chat_hello default_args
           (env_linux ([inr "  "; inr "multiline"] ++ inr "Show-Markdown" :: []))) =
      (Print banner :: w ++
       [Prompt ml; Print show_markdown_header;
        Print (Syntax (setup (env_linux [])) "markdown")] ++ w')%list /\
    chat_requests w = [].
Proof.
  assert (Q : Forall quiet [inr "  "; inr "multiline"]).
  { repeat constructor.
    - exists "  ". split; [reflexivity|]. left. reflexivity.
    - exists "multiline". split; [reflexivity|]. right. right. reflexivity. }
  split; [exact Q|]. split; [reflexivity|].
  apply (show_markdown_before_exchange_shows_setup chat_hello default_args
           (env_linux ([inr "  "; inr "multiline"] ++ inr "Show-Markdown" :: []))
           [inr "  "; inr "multiline"] "Show-Markdown" []);
    solve [reflexivity | exact Q].
Defined.

(** ** One-shot mode *)

(** C1, at a failing input.  With a prompt argument the conversation of
    two messages is built, but the call of [ask_ollama] passes three
    arguments to a function of four parameters: [TypeError] is raised
    before any request is made, nothing but the banner is printed, and
    the exception, which is not a [KeyboardInterrupt], leaves [cli]. *)
Theorem one_shot_raises_type_error chat model no_stream env :
  cli chat {| prompt := Some "Hi"; model := model; no_stream := no_stream;
              version := false |} env =
  ([Print banner], Uncaught TypeError).
Proof. reflexivity. Qed.

(** The interactive call site passes the four arguments, and the same
    question is answered. *)
Example interactive_question_is_answered :
  cli chat_hello default_args (env_linux [inr "Hi"; inl EOFError]) =
  ([Print banner; Prompt false; StatusEnter;
    Chat "llama2" [Message system (setup (env_linux [])); Message user "Hi"] true;
    StatusExit; Print response_header; LiveEnter "";
    LiveUpdate (Markdown "Hel"); LiveUpdate (Markdown "Hello"); LiveExit;
    Prompt false], Exit 0).
Proof. reflexivity. Qed.

(** * Further properties of the program *)

(** ** Fenced code blocks *)

Lemma rstrip_by_last_char p s :
  match SimpleCodeBlock.last_char (PyStr.rstrip_by p s) with
  | Some c => p c = false
  | None => True
  end.
Proof.
  induction s as [|c s IH]; simpl; [exact I|].
  destruct (PyStr.rstrip_by p s) as [|d r].
  - destruct (p c) eqn:Hc; simpl; auto.
  - exact IH.
Qed.

(** A fenced code block is rendered as three parts: the language tag,
    the highlighted code, and the tag again after a slash.  The code is
    the text of the block with its trailing whitespace cut off and
    nothing else changed: the text is the code followed by whitespace
    only, and the code does not end in whitespace. *)
Theorem code_block_cuts_trailing_whitespace (self : SimpleCodeBlock.t) :
  exists code tail,
    SimpleCodeBlock.rich_console self =
      [SimpleCodeBlock.Text (SimpleCodeBlock.lexer_name self) "dim";
       SimpleCodeBlock.SyntaxOf code (SimpleCodeBlock.lexer_name self)
         (SimpleCodeBlock.theme self) "default" true;
       SimpleCodeBlock.Text ("/" ++ SimpleCodeBlock.lexer_name self) "dim"] /\
    SimpleCodeBlock.text self = code ++ tail /\
    PyStr.all PyStr.isspace tail = true /\
    match SimpleCodeBlock.last_char code with
    | Some c => PyStr.isspace c = false
    | None => True
    end.
Proof.
  destruct (PyStrFacts.rstrip_by_split PyStr.isspace (SimpleCodeBlock.text self))
    as (tail & E & Ht).
  exists (SimpleCodeBlock.rstrip (SimpleCodeBlock.text self)), tail.
  repeat split; auto. apply rstrip_by_last_char.
Qed.

(** A block of whitespace only is rendered with empty code. *)
Theorem code_block_of_whitespace_is_empty (self : SimpleCodeBlock.t) :
  PyStr.all PyStr.isspace (SimpleCodeBlock.text self) = true ->
  SimpleCodeBlock.rich_console self =
    [SimpleCodeBlock.Text (SimpleCodeBlock.lexer_name self) "dim";
     SimpleCodeBlock.SyntaxOf "" (SimpleCodeBlock.lexer_name self)
       (SimpleCodeBlock.theme self) "default" true;
     SimpleCodeBlock.Text ("/" ++ SimpleCodeBlock.lexer_name self) "dim"].
Proof.
  intros H. unfold SimpleCodeBlock.rich_console, SimpleCodeBlock.rstrip.
  now rewrite PyStrFacts.rstrip_by_all.
Qed.

Lemma code_block_of_whitespace_is_empty_witness :
  SimpleCodeBlock.rich_console
    {| SimpleCodeBlock.lexer_name := "python"; SimpleCodeBlock.theme := "monokai";
       SimpleCodeBlock.text := PyStr.nl ++ " " ++ PyStr.tab |} =
    [SimpleCodeBlock.Text "python" "dim";
     SimpleCodeBlock.SyntaxOf "" "python" "monokai" "default" true;
     SimpleCodeBlock.Text "/python" "dim"].
Proof.
  apply (code_block_of_whitespace_is_empty
           {| SimpleCodeBlock.lexer_name := "python";
              SimpleCodeBlock.theme := "monokai";
              SimpleCodeBlock.text := PyStr.nl ++ " " ++ PyStr.tab |}).
  reflexivity.
Defined.

(** Inner and leading whitespace is kept. *)
Example code_block_print :
  SimpleCodeBlock.rich_console
    {| SimpleCodeBlock.lexer_name := "python"; SimpleCodeBlock.theme := "monokai";
       SimpleCodeBlock.text := "  print(1) " ++ PyStr.nl |} =
    [SimpleCodeBlock.Text "python" "dim";
     SimpleCodeBlock.SyntaxOf "  print(1)" "python" "monokai" "default" true;
     SimpleCodeBlock.Text "/python" "dim"].
Proof. reflexivity. Qed.

(** ** What one iteration can do *)

Lemma chat_settings_app w1 w2 :
  chat_settings (w1 ++ w2) = (chat_settings w1 ++ chat_settings w2)%list.
Proof.
  induction w1 as [|e w1 IH]; simpl; [reflexivity|].
  destruct e; simpl; now rewrite ?IH.
Qed.

Lemma for_chunks_no_setting chunks acc :
  chat_settings (fst (for_chunks chunks acc)) = [].
Proof.
  revert acc. induction chunks as [|c chunks IH]; intros acc; simpl.
  - reflexivity.
  - specialize (IH (acc ++ c)). destruct (for_chunks chunks (acc ++ c)).
    exact IH.
Qed.

(** Every call of [ask_ollama] makes its request with the model and the
    stream flag it was given. *)
Lemma ask_ollama_one_setting chat model msgs stream :
  chat_settings (fst (ask_ollama chat model msgs stream)) = [(model, stream)].
Proof.
  destruct (chat model msgs stream) as [e|[full|chunks stop]] eqn:H.
  - now rewrite (ask_ollama_wait_raises _ _ _ _ _ H).
  - destruct stream.
    + unfold ask_ollama. rewrite H. reflexivity.
    + now rewrite (ask_ollama_full _ _ _ _ H).
  - destruct stream.
    + rewrite (ask_ollama_stream _ _ _ _ _ H). cbn [fst].
      rewrite !chat_settings_app, for_chunks_no_setting.
      destruct stop as [[]|]; reflexivity.
    + unfold ask_ollama. rewrite H. reflexivity.
Qed.

(** An iteration either makes no request and keeps the conversation, or
    makes one request, with the conversation and the new user message,
    and goes on only with the answer appended.  When it returns, the code
    is 0. *)
Lemma loop_body_kinds chat model stream s read :
  exists w r,
    loop_body chat model stream s read = (w, r) /\
    ((chat_requests w = [] /\ chat_settings w = [] /\
      (r = inr (Return 0) \/ (exists e, r = inl e) \/
       exists ml, r = inr (Continue {| messages := messages s;
                                       multiline := ml |})))
     \/
     (exists t,
        chat_requests w = [(messages s ++ [Message user t])%list] /\
        chat_settings w = [(model, stream)] /\
        (r = inr (Return 0) \/ (exists e, r = inl e) \/
         exists c,
           r = inr (Continue
                      {| messages :=
                           (messages s ++ [Message user t; Message assistant c])%list;
                         multiline := multiline s |})))).
Proof.
  destruct read as [e|text].
  - destruct e; eexists _, _; (split; [reflexivity|]); left;
      repeat split; eauto.
  - rewrite loop_body_line. unfold dispatch.
    destruct (negb (PyStr.truthy (PyStr.strip text))).
    { eexists _, _. split; [reflexivity|]. left. repeat split.
      right. right. exists (multiline s). now destruct s. }
    destruct (ident_prompt text =? "show-markdown").
    { unfold last_message. destruct (rev (messages s)) as [|m l];
        eexists _, _; (split; [reflexivity|]); left; repeat split; cbn.
      - right. left. now eexists.
      - right. right. exists (multiline s). now destruct s. }
    destruct (ident_prompt text =? "multiline").
    { destruct (negb (multiline s)) eqn:E; rewrite ?E;
        eexists _, _; (split; [reflexivity|]); left; repeat split; cbn;
        right; right; now eexists. }
    pose proof (exchange_requests chat model stream s text) as Hr.
    assert (Hs : chat_settings (fst (exchange chat model stream s text))
                 = [(model, stream)]).
    { unfold exchange, call_ask_ollama.
      pose proof (ask_ollama_one_setting chat model
                    (messages s ++ [Message user text]) stream) as H.
      destruct (ask_ollama chat model (messages s ++ [Message user text]) stream)
        as [w [[]|c]]; exact H. }
    eexists _, _. split; [reflexivity|]. right. exists text.
    cbn [chat_requests chat_settings]. repeat split; auto.
    unfold exchange, call_ask_ollama.
    destruct (ask_ollama chat model (messages s ++ [Message user text]) stream)
      as [w [[]|c]]; cbn [snd]; eauto.
    right. right. exists c. now rewrite <- app_assoc.
Qed.

(** Unfolding the loop by one iteration that goes on. *)
Lemma cli_loop_continue chat model stream read rest s w s' :
  loop_body chat model stream s read = (w, inr (Continue s')) ->
  cli_loop chat model stream (read :: rest) s =
  ((w ++ fst (cli_loop chat model stream rest s'))%list,
   snd (cli_loop chat model stream rest s')).
Proof.
  intros H. cbn [cli_loop]. rewrite H.
  now destruct (cli_loop chat model stream rest s').
Qed.

Lemma cli_loop_stop chat model stream read rest s w r :
  loop_body chat model stream s read = (w, r) ->
  (r = inr (Return 0) \/ exists e, r = inl e) ->
  cli_loop chat model stream (read :: rest) s =
  (w, match r with inl e => Uncaught e | _ => Exit 0 end).
Proof.
  intros H [-> | (e & ->)]; cbn [cli_loop]; now rewrite H.
Qed.

(** ** Exit codes *)

Lemma cli_loop_exit_zero chat model stream reads s :
  match snd (cli_loop chat model stream reads s) with
  | Exit code => code = 0%Z
  | _ => True
  end.
Proof.
  revert s. induction reads as [|read rest IH]; intros s; [exact I|].
  destruct (loop_body_kinds chat model stream s read)
    as (w & r & E & [(_ & _ & H) | (t & _ & _ & H)]);
    destruct H as [-> | [(e & ->) | (x & ->)]];
    try (rewrite (cli_loop_stop _ _ _ _ _ _ _ _ E) by eauto; cbn; auto);
    rewrite (cli_loop_continue _ _ _ _ _ _ _ _ E); cbn [snd]; apply IH.
Qed.

(** Once the arguments are parsed, whenever [cli] returns a value, that
    value is 0: with the version flag, and however the interactive loop
    is left by a [return].  (A run can also end with an exception that
    nobody catches, which is not a return of [cli].) *)
Theorem cli_returns_only_zero chat args env :
  match snd (cli chat args env) with
  | Exit code => code = 0%Z
  | _ => True
  end.
Proof.
  unfold cli. destruct (version args); [reflexivity|].
  destruct (prompt_given args) as [p|].
  - cbn. exact I.
  - pose proof (cli_loop_exit_zero chat (model args) (negb (no_stream args))
                  (keyboard env)
                  {| messages := [Message system (setup env)];
                     multiline := false |}) as H.
    now destruct cli_loop.
Qed.

(** With the version flag the program prints its banner and returns 0:
    it sends nothing to the chat client and reads no line, whatever the
    other arguments are, a prompt included. *)
Theorem version_flag_only_prints_banner chat args env :
  version args = true ->
  cli chat args env = ([Print banner], Exit 0).
Proof. intros H. unfold cli. now rewrite H. Qed.

Lemma version_flag_only_prints_banner_witness :
  cli chat_hello
    {| prompt := Some "Hi"; model := "mistral"; no_stream := true;
       version := true |}
    (env_linux [inr "never read"]) = ([Print banner], Exit 0).
Proof.
  apply (version_flag_only_prints_banner chat_hello
           {| prompt := Some "Hi"; model := "mistral"; no_stream := true;
              version := true |} (env_linux [inr "never read"])).
  reflexivity.
Defined.

(** An empty prompt argument counts as no prompt: the program enters the
    interactive loop and behaves as if the argument had been omitted. *)
Theorem empty_prompt_is_interactive chat model no_stream version env :
  cli chat {| prompt := Some ""; model := model; no_stream := no_stream;
              version := version |} env =
  cli chat {| prompt := None; model := model; no_stream := no_stream;
              version := version |} env.
Proof. reflexivity. Qed.

(** ** The conversation over a run of the loop *)

Lemma turns_after_turn t c l :
  turns (Message user t :: Message assistant c :: l) = turns l.
Proof. reflexivity. Qed.

(** While the loop runs, the conversation only grows, at its end, by
    whole turns, one turn for each request made. *)
Lemma cli_loop_grows chat model stream reads s w s' :
  cli_loop chat model stream reads s = (w, Awaiting s') ->
  exists added,
    messages s' = (messages s ++ added)%list /\
    turns added = true /\
    List.length added = 2 * List.length (chat_requests w).
Proof.
  revert s w. induction reads as [|read rest IH]; intros s w H.
  - cbn in H. injection H as <- <-. exists []. now rewrite app_nil_r.
  - destruct (loop_body_kinds chat model stream s read)
      as (w1 & r & E & [(Hr & _ & K) | (t & Hr & _ & K)]);
      destruct K as [-> | [(e & ->) | (x & ->)]];
      try (rewrite (cli_loop_stop _ _ _ _ _ _ _ _ E) in H by eauto;
           discriminate H);
      rewrite (cli_loop_continue _ _ _ _ _ _ _ _ E) in H;
      destruct (cli_loop chat model stream rest _) as [w2 o] eqn:E2;
      cbn [fst snd] in H; injection H as <- ->;
      destruct (IH _ _ E2) as (added & Hm & Ht & Hl);
      cbn [messages] in Hm; rewrite chat_requests_app, Hr.
    + exists added. auto.
    + exists (Message user t :: Message assistant x :: added).
      rewrite Hm, <- app_assoc. cbn [app List.length].
      rewrite turns_after_turn. repeat split; auto. lia.
Qed.

(** ** The requests of a run *)

Lemma cli_loop_chain chat model stream reads s :
  chain (messages s) (chat_requests (fst (cli_loop chat model stream reads s))).
Proof.
  revert s. induction reads as [|read rest IH]; intros s; [constructor|].
  destruct (loop_body_kinds chat model stream s read)
    as (w1 & r & E & [(Hr & _ & K) | (t & Hr & _ & K)]);
    destruct K as [-> | [(e & ->) | (x & ->)]];
    try (rewrite (cli_loop_stop _ _ _ _ _ _ _ _ E) by eauto; cbn [fst];
         rewrite Hr);
    try (rewrite (cli_loop_continue _ _ _ _ _ _ _ _ E); cbn [fst];
         rewrite chat_requests_app, Hr; cbn [app]).
  - constructor.
  - constructor.
  - exact (IH {| messages := messages s; multiline := x |}).
  - apply (chain_cons _ _ ""). constructor.
  - apply (chain_cons _ _ ""). constructor.
  - apply (chain_cons _ _ x).
    exact (IH {| messages := messages s ++ [Message user t; Message assistant x];
                 multiline := multiline s |}).
Qed.

Lemma chain_shape m rs :
  chain m rs ->
  Forall (fun r => exists mid t,
            r = (m ++ mid ++ [Message user t])%list /\ turns mid = true) rs.
Proof.
  induction 1 as [m | m t c rs Hc IH]; constructor.
  - now exists [], t.
  - eapply Forall_impl; [|exact IH].
    intros r (mid & t' & -> & Ht).
    exists (Message user t :: Message assistant c :: mid), t'.
    rewrite <- !app_assoc. split; [reflexivity|].
    now rewrite turns_after_turn.
Qed.

(** The requests of the program are those of its interactive loop. *)
Lemma cli_requests chat args env :
  chat_requests (fst (cli chat args env)) = [] \/
  chat_requests (fst (cli chat args env)) =
  chat_requests
    (fst (cli_loop chat (model args) (negb (no_stream args)) (keyboard env)
            {| messages := [Message system (setup env)];
               multiline := false |})).
Proof.
  unfold cli. destruct (version args); [now left|].
  destruct (prompt_given args); [now left|]. right.
  now destruct cli_loop.
Qed.

(** The shape of the conversations sent. *)
Lemma cli_requests_shape chat args env :
  Forall (fun r => exists mid t,
            r = (Message system (setup env) :: mid ++ [Message user t])%list /\
            turns mid = true)
         (chat_requests (fst (cli chat args env))).
Proof.
  destruct (cli_requests chat args env) as [-> | ->]; [constructor|].
  exact (chain_shape _ _
           (cli_loop_chain chat (model args) (negb (no_stream args))
              (keyboard env)
              {| messages := [Message system (setup env)];
                 multiline := false |})).
Qed.

(** ** The questions asked and the answers recorded *)

Lemma is_question_b_spec text : is_question_b text = true <-> is_question text.
Proof.
  unfold is_question_b, is_question.
  rewrite !andb_true_iff, !negb_true_iff, !String.eqb_neq, truthy_true.
  tauto.
Qed.

(** A line that is not a question makes no request, and the loop goes on
    with the same conversation, unless [messages[-1]] fails. *)
Lemma loop_body_not_question chat model stream s text :
  is_question_b text = false ->
  exists w r,
    loop_body chat model stream s (inr text) = (w, r) /\
    chat_requests w = [] /\
    (r = inl IndexError \/
     exists ml, r = inr (Continue {| messages := messages s;
                                     multiline := ml |})).
Proof.
  intros Q. rewrite loop_body_line. unfold dispatch.
  unfold is_question_b in Q.
  destruct (PyStr.truthy (PyStr.strip text)); cbn [negb andb] in *.
  2:{ eexists _, _. repeat split. right. exists (multiline s). now destruct s. }
  destruct (ident_prompt text =? "show-markdown"); cbn [negb andb] in *.
  { unfold last_message. destruct (rev (messages s)) as [|m l];
      eexists _, _; repeat split; cbn.
    - now left.
    - right. exists (multiline s). now destruct s. }
  destruct (ident_prompt text =? "multiline"); [|discriminate Q].
  destruct (negb (multiline s)) eqn:E; rewrite ?E;
    eexists _, _; repeat split; cbn; right; now eexists.
Qed.

(** A question makes one request, and the loop goes on exactly when
    [ask_ollama] returns a text, which is then recorded. *)
Lemma loop_body_asks chat model stream s text :
  is_question text ->
  exists w,
    chat_requests w = [(messages s ++ [Message user text])%list] /\
    match snd (ask_ollama chat model (messages s ++ [Message user text]) stream)
    with
    | inr c =>
        loop_body chat model stream s (inr text) =
        (w, inr (Continue
                   {| messages :=
                        ((messages s ++ [Message user text]) ++
                         [Message assistant c])%list;
                      multiline := multiline s |}))
    | inl e =>
        exists r, loop_body chat model stream s (inr text) = (w, r) /\
                  (r = inr (Return 0) \/ exists e', r = inl e')
    end.
Proof.
  intros Q. rewrite (loop_body_question _ _ _ _ _ Q).
  pose proof (exchange_requests chat model stream s text) as Hr.
  exists (Prompt (multiline s) :: fst (exchange chat model stream s text)).
  split; [exact Hr|].
  unfold exchange, call_ask_ollama.
  destruct (ask_ollama chat model (messages s ++ [Message user text]) stream)
    as [w [e|c]]; cbn [fst snd].
  - eexists. split; [reflexivity|]. destruct e; cbn; eauto.
  - reflexivity.
Qed.

(** The requests of a run are the first of those the questions read lead
    to; and when the run ends waiting for a line, they are all of them
    and the conversation is the one the questions lead to. *)
Lemma cli_loop_replay chat model stream reads s :
  (exists k,
     chat_requests (fst (cli_loop chat model stream reads s)) =
     firstn k (expected_requests chat model stream (questions reads)
                 (messages s))) /\
  forall s',
    snd (cli_loop chat model stream reads s) = Awaiting s' ->
    chat_requests (fst (cli_loop chat model stream reads s)) =
      expected_requests chat model stream (questions reads) (messages s) /\
    conversation_after chat model stream (questions reads) (messages s) =
      Some (messages s').
Proof.
  revert s. induction reads as [|read rest IH]; intros s.
  - split; [now exists 0|]. cbn. intros s' E. now injection E as <-.
  - destruct read as [e|text].
    + split; [exists 0; now destruct e|].
      intros s' E. destruct e; discriminate E.
    + cbn [questions]. destruct (is_question_b text) eqn:Q.
      * apply is_question_b_spec in Q.
        destruct (loop_body_asks chat model stream s text Q) as (w & Hw & H).
        cbn [expected_requests conversation_after].
        destruct (snd (ask_ollama chat model (messages s ++ [Message user text])
                         stream)) as [e|c].
        -- destruct H as (r & E & Hr).
           rewrite (cli_loop_stop _ _ _ _ _ _ _ _ E Hr). cbn [fst snd].
           split; [exists 1; now rewrite Hw|].
           intros s' A. destruct Hr as [-> | (e' & ->)]; discriminate A.
        -- rewrite (cli_loop_continue _ _ _ _ _ _ _ _ H). cbn [fst snd].
           rewrite chat_requests_app, Hw. cbn [app].
           destruct (IH {| messages :=
                             (messages s ++ [Message user text]) ++
                             [Message assistant c];
                           multiline := multiline s |}) as ((k & Hk) & HA).
           cbn [messages] in *. split.
           ++ exists (S k). cbn [firstn]. now rewrite Hk.
           ++ intros s' A. destruct (HA s' A) as (-> & ->). now split.
      * destruct (loop_body_not_question chat model stream s text Q)
          as (w & r & E & Hw & [-> | (ml & ->)]).
        -- rewrite (cli_loop_stop _ _ _ _ _ _ _ _ E) by eauto. cbn [fst snd].
           split; [exists 0; now rewrite Hw|]. intros s' A. discriminate A.
        -- rewrite (cli_loop_continue _ _ _ _ _ _ _ _ E). cbn [fst snd].
           rewrite chat_requests_app, Hw. cbn [app].
           exact (IH {| messages := messages s; multiline := ml |}).
Qed.

Lemma conversation_after_length chat model stream qs m m' :
  conversation_after chat model stream qs m = Some m' ->
  List.length (expected_requests chat model stream qs m) = List.length qs.
Proof.
  revert m. induction qs as [|q qs IH]; intros m H; [reflexivity|].
  cbn [conversation_after expected_requests List.length] in *.
  destruct (snd (ask_ollama chat model (m ++ [Message user q]) stream));
    [discriminate H|].
  now rewrite (IH _ H).
Qed.

(** The last message of each request is the question it is made for. *)
Lemma expected_requests_last chat model stream qs m k d :
  map (fun r => last r d)
      (firstn k (expected_requests chat model stream qs m)) =
  map (Message user)
      (firstn (List.length
                 (firstn k (expected_requests chat model stream qs m))) qs).
Proof.
  revert m k. induction qs as [|q qs IH]; intros m k.
  - now destruct k.
  - destruct k as [|k]; [reflexivity|].
    cbn [expected_requests firstn map List.length]. rewrite last_last.
    f_equal.
    destruct (snd (ask_ollama chat model (m ++ [Message user q]) stream)).
    + now destruct k.
    + apply IH.
Qed.

(** Of two successive requests, the second is the first one, the text
    [ask_ollama] returned for it, and the next question. *)
Lemma expected_requests_consecutive chat model stream qs m k pre r1 r2 post :
  firstn k (expected_requests chat model stream qs m) =
    (pre ++ r1 :: r2 :: post)%list ->
  exists c t,
    r2 = (r1 ++ [Message assistant c; Message user t])%list /\
    snd (ask_ollama chat model r1 stream) = inr c /\
    In t qs.
Proof.
  revert m k pre. induction qs as [|q qs IH]; intros m k pre H.
  - destruct k, pre; discriminate H.
  - destruct k as [|k]; [destruct pre; discriminate H|].
    cbn [expected_requests firstn] in H.
    destruct (snd (ask_ollama chat model (m ++ [Message user q]) stream))
      as [e|c] eqn:A.
    + destruct k, pre as [|x [|y pre]]; discriminate H.
    + destruct pre as [|x pre]; cbn [app] in H; injection H as H1 H2.
      * subst r1. destruct qs as [|q2 qs]; [destruct k; discriminate H2|].
        destruct k as [|k]; [discriminate H2|].
        cbn [expected_requests firstn] in H2. injection H2 as H2 _.
        exists c, q2. subst r2. rewrite <- app_assoc.
        repeat split; auto. right. now left.
      * destruct (IH _ _ _ H2) as (c' & t & E & Hc & Ht).
        exists c', t. repeat split; auto. now right.
Qed.

Lemma questions_in t reads :
  In t (questions reads) -> In (inr t) reads /\ is_question t.
Proof.
  induction reads as [|[e|text] rest IH]; cbn [questions]; [easy|easy|].
  destruct (is_question_b text) eqn:Q.
  - intros [<- | H].
    + split; [now left | now apply is_question_b_spec].
    + destruct (IH H). split; [now right | assumption].
  - intros H. destruct (IH H). split; [now right | assumption].
Qed.

(** While the loop runs, the conversation only grows, at its end, by
    whole turns (a user message, then an assistant message), one turn
    for each request made: nothing is removed or rewritten.  When the
    loop waits for its next line, every question read was asked, and the
    conversation is exactly the one the questions lead to: each question
    line, verbatim, as a user message, followed by the text that
    [ask_ollama] returned for the conversation ending with it. *)
Theorem conversation_grows_by_turns chat model stream reads s w s' :
  cli_loop chat model stream reads s = (w, Awaiting s') ->
  (exists added,
     messages s' = (messages s ++ added)%list /\
     turns added = true /\
     List.length added = 2 * List.length (chat_requests w)) /\
  conversation_after chat model stream (questions reads) (messages s) =
    Some (messages s') /\
  List.length (chat_requests w) = List.length (questions reads).
Proof.
  intros H. split; [exact (cli_loop_grows _ _ _ _ _ _ _ H)|].
  destruct (cli_loop_replay chat model stream reads s) as (_ & HA).
  rewrite H in HA. destruct (HA s' eq_refl) as (Hr & Hc).
  split; [exact Hc|]. cbn [fst] in Hr. rewrite Hr.
  exact (conversation_after_length _ _ _ _ _ _ Hc).
Qed.

Lemma conversation_grows_by_turns_witness :
  conversation_after chat_hello "llama2" true
    (questions [inr " Hi "; inr ""; inr "show-markdown"; inr "More"])
    (messages session0) =
  Some [Message system (setup (env_linux [])); Message user " Hi ";
        Message assistant "Hello"; Message user "More";
        Message assistant "Hello"].
Proof.
  apply (conversation_grows_by_turns chat_hello "llama2" true
           [inr " Hi "; inr ""; inr "show-markdown"; inr "More"] session0
           (fst (cli_loop chat_hello "llama2" true
                   [inr " Hi "; inr ""; inr "show-markdown"; inr "More"]
                   session0))
           {| messages := [Message system (setup (env_linux []));
                           Message user " Hi "; Message assistant "Hello";
                           Message user "More"; Message assistant "Hello"];
              multiline := false |}).
  reflexivity.
Defined.

(** The requests of the program are the first of those its questions
    lead to. *)
Lemma cli_requests_prefix chat args env :
  exists k,
    chat_requests (fst (cli chat args env)) =
    firstn k (expected_requests chat (model args) (negb (no_stream args))
                (questions (keyboard env)) [Message system (setup env)]).
Proof.
  destruct (cli_requests chat args env) as [-> | ->]; [now exists 0|].
  exact (proj1 (cli_loop_replay chat (model args) (negb (no_stream args))
                  (keyboard env)
                  {| messages := [Message system (setup env)];
                     multiline := false |})).
Qed.

(** Every conversation the program sends to the chat client starts with
    the system message built at start-up, has whole turns (user, then
    assistant) after it, and ends with a user message; and these last
    messages are, request after request, the question lines read from
    the keyboard, verbatim and in order. *)
Theorem every_request_is_well_shaped chat args env :
  Forall (fun r => exists mid t,
            r = (Message system (setup env) :: mid ++ [Message user t])%list /\
            turns mid = true)
         (chat_requests (fst (cli chat args env))) /\
  map (fun r => last r (Message system ""))
      (chat_requests (fst (cli chat args env))) =
  map (Message user)
      (firstn (List.length (chat_requests (fst (cli chat args env))))
              (questions (keyboard env))).
Proof.
  split; [apply cli_requests_shape|].
  destruct (cli_requests_prefix chat args env) as (k & ->).
  apply expected_requests_last.
Qed.

(** Context is carried on: of two successive requests of a run, the
    second is the first one, followed by the text that [ask_ollama]
    returned for the first as an assistant message, and by a question
    line read from the keyboard as the next user message. *)
Theorem each_request_extends_the_previous chat args env pre r1 r2 post :
  chat_requests (fst (cli chat args env)) = (pre ++ r1 :: r2 :: post)%list ->
  exists c t,
    r2 = (r1 ++ [Message assistant c; Message user t])%list /\
    snd (ask_ollama chat (model args) r1 (negb (no_stream args))) = inr c /\
    In (inr t) (keyboard env) /\ is_question t.
Proof.
  intros H. destruct (cli_requests_prefix chat args env) as (k & E).
  rewrite E in H.
  destruct (expected_requests_consecutive _ _ _ _ _ _ _ _ _ _ H)
    as (c & t & E2 & Hc & Ht).
  exists c, t. destruct (questions_in _ _ Ht). auto.
Qed.

Lemma each_request_extends_the_previous_witness :
  exists c t,
    [Message system (setup (env_linux [])); Message user "Hi";
     Message assistant "Hello"; Message user "More"] =
    ([Message system (setup (env_linux [])); Message user "Hi"] ++
     [Message assistant c; Message user t])%list /\
    snd (ask_ollama chat_hello "llama2"
           [Message system (setup (env_linux [])); Message user "Hi"] true)
      = inr c /\
    In (inr t) (keyboard (env_linux [inr "Hi"; inr "multiline"; inr "More"])) /\
    is_question t.
Proof.
  apply (each_request_extends_the_previous chat_hello default_args
           (env_linux [inr "Hi"; inr "multiline"; inr "More"]) [] _ _ []).
  reflexivity.
Defined.


Lemma cli_loop_settings chat model stream reads s :
  Forall (fun ms => ms = (model, stream))
         (chat_settings (fst (cli_loop chat model stream reads s))).
Proof.
  revert s. induction reads as [|read rest IH]; intros s; [constructor|].
  destruct (loop_body_kinds chat model stream s read)
    as (w1 & r & E & [(_ & Hs & K) | (t & _ & Hs & K)]);
    destruct K as [-> | [(e & ->) | (x & ->)]];
    try (rewrite (cli_loop_stop _ _ _ _ _ _ _ _ E) by eauto; cbn [fst];
         rewrite Hs; repeat constructor);
    rewrite (cli_loop_continue _ _ _ _ _ _ _ _ E); cbn [fst];
    rewrite chat_settings_app, Hs; cbn [app];
    repeat constructor; apply IH.
Qed.

(** Every request is made with the model and the streaming mode given on
    the command line: they do not change during a run. *)
Theorem requests_use_command_line_settings chat args env :
  Forall (fun ms => ms = (model args, negb (no_stream args)))
         (chat_settings (fst (cli chat args env))).
Proof.
  unfold cli. destruct (version args); [constructor|].
  destruct (prompt_given args); [constructor|].
  pose proof (cli_loop_settings chat (model args) (negb (no_stream args))
                (keyboard env)
                {| messages := [Message system (setup env)];
                   multiline := false |}) as H.
  now destruct cli_loop.
Qed.

(** ** Failures of the chat client *)

(** A failure of the request other than an interrupt (the service cannot
    be reached, the model is unknown, ...) is not caught: the status
    indicator is closed and the exception ends the program; the lines
    that would have followed are never read. *)
Theorem chat_failure_ends_program chat model stream s text rest e :
  is_question text ->
  e <> KeyboardInterrupt ->
  chat model (messages s ++ [Message user text])%list stream = inl e ->
  cli_loop chat model stream (inr text :: rest) s =
  ([Prompt (multiline s); StatusEnter;
    Chat model (messages s ++ [Message user text])%list stream; StatusExit],
   Uncaught e).
Proof.
  intros Hq He Hc. cbn [cli_loop].
  rewrite (loop_body_question _ _ _ _ _ Hq).
  unfold exchange, call_ask_ollama.
  rewrite (ask_ollama_wait_raises _ _ _ _ _ Hc).
  destruct e; try reflexivity. now elim He.
Qed.

Lemma chat_failure_ends_program_witness :
  cli_loop chat_down "llama2" true [inr "Hi"; inr "never read"] session0 =
  ([Prompt false; StatusEnter;
    Chat "llama2" (messages session0 ++ [Message user "Hi"])%list true;
    StatusExit],
   Uncaught (OtherError "ConnectionError")).
Proof.
  apply (chat_failure_ends_program chat_down "llama2" true session0 "Hi"
           [inr "never read"] (OtherError "ConnectionError")).
  - repeat split; discriminate.
  - discriminate.
  - reflexivity.
Defined.

(** A stream that breaks with an exception other than an interrupt after
    some fragments: the fragments were rendered, the live display is
    closed, no "Interrupted" notice is printed, and the exception ends
    the program. *)
Theorem broken_stream_ends_program chat model s text rest chunks e :
  is_question text ->
  e <> KeyboardInterrupt ->
  chat model (messages s ++ [Message user text])%list true
    = inr (Iter chunks (Some e)) ->
  cli_loop chat model true (inr text :: rest) s =
  (([Prompt (multiline s); StatusEnter;
     Chat model (messages s ++ [Message user text])%list true; StatusExit;
     Print response_header; LiveEnter ""] ++
    fst (for_chunks chunks "") ++ [LiveExit])%list,
   Uncaught e).
Proof.
  intros Hq He Hc. cbn [cli_loop].
  rewrite (loop_body_question _ _ _ _ _ Hq).
  unfold exchange, call_ask_ollama.
  rewrite (ask_ollama_stream _ _ _ _ _ Hc).
  destruct e; try reflexivity. now elim He.
Qed.

Lemma broken_stream_ends_program_witness :
  cli_loop chat_broken "llama2" true [inr "Hi"; inr "never read"] session0 =
  (([Prompt false; StatusEnter;
     Chat "llama2" (messages session0 ++ [Message user "Hi"])%list true;
     StatusExit; Print response_header; LiveEnter ""] ++
    fst (for_chunks ["Hel"] "") ++ [LiveExit])%list,
   Uncaught (OtherError "ResponseError")).
Proof.
  apply (broken_stream_ends_program chat_broken "llama2" session0 "Hi"
           [inr "never read"] ["Hel"] (OtherError "ResponseError")).
  - repeat split; discriminate.
  - discriminate.
  - reflexivity.
Defined.

(** ** What is returned is what was shown *)

Lemma markdown_prints_app w1 w2 :
  markdown_prints (w1 ++ w2) = (markdown_prints w1 ++ markdown_prints w2)%list.
Proof.
  induction w1 as [|e w1 IH]; simpl; [reflexivity|].
  destruct e as [r| | | | |r| |]; try exact IH;
    destruct r; simpl; now rewrite ?IH.
Qed.

Lemma for_chunks_no_print chunks acc :
  markdown_prints (fst (for_chunks chunks acc)) = [].
Proof.
  revert acc. induction chunks as [|c chunks IH]; intros acc; simpl.
  - reflexivity.
  - specialize (IH (acc ++ c)). destruct (for_chunks chunks (acc ++ c)).
    exact IH.
Qed.

Lemma last_cons_default (x : string) l d : last (x :: l) d = last l x.
Proof.
  revert x d. induction l as [|y l IH]; intros x d; [reflexivity|].
  change (last (x :: y :: l) d) with (last (y :: l) d).
  now rewrite (IH y d), (IH y x).
Qed.

Lemma for_chunks_last chunks acc :
  last (live_renders (fst (for_chunks chunks acc))) acc =
  acc ++ PyStr.join chunks.
Proof.
  revert acc. induction chunks as [|c chunks IH]; intros acc.
  - cbn. now rewrite append_empty_r.
  - specialize (IH (acc ++ c)). cbn [for_chunks].
    destruct (for_chunks chunks (acc ++ c)) as [w final].
    cbn [fst live_renders] in *. rewrite last_cons_default, IH.
    cbn [PyStr.join]. now rewrite append_assoc.
Qed.

(** Whenever [ask_ollama] returns a text, that text is what the user was
    shown.  With streaming, when the stream ends normally or the iterator
    raises the interrupt while the next fragment is awaited, it is the
    last content given to the live display, and nothing is printed as
    markdown besides; without streaming it is the one markdown print, and
    the live display is not used.  (An interrupt that lands inside the
    body of the loop, between the accumulation and the update of the
    display, is not among the responses of the model.) *)
Theorem returned_text_is_what_was_shown chat model msgs stream w c :
  ask_ollama chat model msgs stream = (w, inr c) ->
  if stream
  then live_final w = c /\ markdown_prints w = []
  else markdown_prints w = [c] /\ live_renders w = [].
Proof.
  intros H.
  destruct (chat model msgs stream) as [e|[full|chunks stop]] eqn:Hc.
  - rewrite (ask_ollama_wait_raises _ _ _ _ _ Hc) in H. discriminate H.
  - destruct stream.
    + unfold ask_ollama in H. rewrite Hc in H. discriminate H.
    + rewrite (ask_ollama_full _ _ _ _ Hc) in H. injection H as <- <-.
      now split.
  - destruct stream.
    + rewrite (ask_ollama_stream _ _ _ _ _ Hc) in H. injection H as <- Hr.
      assert (c = PyStr.join chunks) as -> by (destruct stop as [[]|]; congruence).
      unfold live_final, response_header.
      cbn [live_renders markdown_prints].
      rewrite live_renders_app, markdown_prints_app, for_chunks_no_print.
      split.
      * replace (live_renders (LiveExit :: _)) with (@nil string)
          by (destruct stop as [[]|]; reflexivity).
        cbn [live_renders app]. rewrite app_nil_r.
        exact (for_chunks_last chunks "").
      * destruct stop as [[]|]; reflexivity.
    + unfold ask_ollama in H. rewrite Hc in H. discriminate H.
Qed.

Lemma returned_text_is_what_was_shown_witness :
  live_final (fst (ask_ollama chat_cut "llama2" [] true)) = "Hel" /\
  markdown_prints (fst (ask_ollama chat_cut "llama2" [] true)) = [].
Proof.
  apply (returned_text_is_what_was_shown chat_cut "llama2" [] true
           (fst (ask_ollama chat_cut "llama2" [] true)) "Hel").
  reflexivity.
Defined.

(** ** Which lines are commands *)

Lemma spaces_mem s : spaces s = PyStr.all (fun c => PyStr.mem c " ") s.
Proof.
  unfold spaces. induction s as [|c s IH]; simpl; [reflexivity|].
  now rewrite IH, orb_false_r.
Qed.

(** The lower-cased line around what [strip(" ")] keeps of it. *)
Lemma strip_chars_space_split s :
  exists l r,
    s = l ++ PyStr.strip_chars " " s ++ r /\
    spaces l = true /\ spaces r = true.
Proof.
  unfold PyStr.strip_chars, PyStr.strip_by.
  destruct (PyStrFacts.lstrip_by_split (fun c => PyStr.mem c " ") s)
    as (l & El & Hl).
  destruct (PyStrFacts.rstrip_by_split (fun c => PyStr.mem c " ")
              (PyStr.lstrip_by (fun c => PyStr.mem c " ") s))
    as (r & Er & Hr).
  exists l, r. rewrite !spaces_mem. repeat split; auto.
  now rewrite <- Er.
Qed.

(** Spaces around a word that neither begins nor ends with a space are
    what [strip(" ")] removes. *)
Lemma strip_chars_space_around l c u r :
  spaces l = true -> spaces r = true ->
  Ascii.eqb c " " = false ->
  PyStr.rstrip_by (fun c => PyStr.mem c " ") (String c u) = String c u ->
  PyStr.strip_chars " " (l ++ String c u ++ r) = String c u.
Proof.
  intros Hl Hr Hc Hu. rewrite spaces_mem in Hl, Hr.
  unfold PyStr.strip_chars, PyStr.strip_by.
  rewrite PyStrFacts.lstrip_by_app_all by exact Hl.
  cbn [append PyStr.lstrip_by PyStr.mem]. rewrite Hc. cbn [orb].
  change (String c (u ++ r)) with (String c u ++ r).
  now rewrite PyStrFacts.rstrip_by_app_all.
Qed.

(** A line is the "multiline" command exactly when, lower-cased, it is
    the word "multiline" with any number of spaces before and after it.
    Tabs, newlines or other characters around the word make it a
    question. *)
Theorem multiline_command_lines text :
  ident_prompt text = "multiline" <->
  exists l r,
    PyStr.lower text = l ++ "multiline" ++ r /\
    spaces l = true /\ spaces r = true.
Proof.
  unfold ident_prompt. split.
  - intros H. apply replace_multiline_inv in H.
    destruct (strip_chars_space_split (PyStr.lower text)) as (l & r & E & Hl & Hr).
    rewrite H in E. now exists l, r.
  - intros (l & r & E & Hl & Hr). rewrite E.
    now rewrite (strip_chars_space_around l "m" "ultiline" r Hl Hr).
Qed.

(** A line is the "show-markdown" command exactly when, lower-cased, it
    is "show-markdown" or "show markdown" (one hyphen or one space
    between the two words) with any number of spaces before and after. *)
Theorem show_markdown_command_lines text :
  ident_prompt text = "show-markdown" <->
  exists l r,
    (PyStr.lower text = l ++ "show-markdown" ++ r \/
     PyStr.lower text = l ++ "show markdown" ++ r) /\
    spaces l = true /\ spaces r = true.
Proof.
  unfold ident_prompt. split.
  - intros H. apply replace_show_markdown_inv in H.
    destruct (strip_chars_space_split (PyStr.lower text)) as (l & r & E & Hl & Hr).
    exists l, r. destruct H as [H | H]; rewrite H in E; auto.
  - intros (l & r & [E | E] & Hl & Hr); rewrite E.
    + now rewrite (strip_chars_space_around l "s" "how-markdown" r Hl Hr).
    + now rewrite (strip_chars_space_around l "s" "how markdown" r Hl Hr).
Qed.

(** ** Commands after an exchange *)

(** After an exchange that returned a text, "show-markdown" displays that
    text as markdown source (the partial text, when the stream was
    interrupted), and the conversation holds the question and the
    answer. *)
Theorem show_markdown_after_answer chat model stream s question command w c :
  is_question question ->
  ident_prompt command = "show-markdown" ->
  ask_ollama chat model (messages s ++ [Message user question]) stream
    = (w, inr c) ->
  cli_loop chat model stream [inr question; inr command] s =
  ((Prompt (multiline s) :: w ++
    [Prompt (multiline s); Print show_markdown_header;
     Print (Syntax c "markdown")])%list,
   Awaiting
     {| messages :=
          (messages s ++ [Message user question; Message assistant c])%list;
        multiline := multiline s |}).
Proof.
  intros Hq Hc Ha. cbn [cli_loop].
  rewrite (loop_body_question _ _ _ _ _ Hq), (exchange_returns _ _ _ _ _ _ _ Ha).
  cbn [fst snd]. rewrite loop_body_line.
  rewrite (dispatch_show_markdown _ _ _ _
             (messages s ++ [Message user question]) (Message assistant c) _ Hc)
    by (cbn [messages]; now rewrite <- app_assoc).
  reflexivity.
Qed.

Lemma show_markdown_after_answer_witness :
  cli_loop chat_cut "llama2" true [inr "Hi"; inr "show markdown"] session0 =
  ((Prompt false :: fst (ask_ollama chat_cut "llama2"
                           (messages session0 ++ [Message user "Hi"]) true) ++
    [Prompt false; Print show_markdown_header;
     Print (Syntax "Hel" "markdown")])%list,
   Awaiting
     {| messages :=
          (messages session0 ++ [Message user "Hi"; Message assistant "Hel"])%list;
        multiline := false |}).
Proof.
  apply (show_markdown_after_answer chat_cut "llama2" true session0 "Hi"
           "show markdown").
  - repeat split; discriminate.
  - reflexivity.
  - reflexivity.
Defined.

(** ** Any number of "multiline" commands *)

(** After [n] "multiline" commands in a row the flag has its original
    value when [n] is even and the opposite value when [n] is odd; the
    conversation is unchanged and nothing was sent to the chat client. *)
Theorem multiline_commands_flip_by_parity chat model stream reads s :
  Forall multiline_command reads ->
  exists w,
    cli_loop chat model stream reads s =
    (w, Awaiting
          {| messages := messages s;
             multiline := if Nat.even (List.length reads) then multiline s
                          else negb (multiline s) |}) /\
    chat_requests w = [].
Proof.
  intros H. revert s.
  induction H as [|read rest (text & -> & Ht) _ IH]; intros s.
  - exists []. split; [|reflexivity]. cbn. now destruct s.
  - destruct (IH {| messages := messages s; multiline := negb (multiline s) |})
      as (w & E & Hw).
    eexists. split.
    + erewrite cli_loop_continue
        by (rewrite loop_body_line, (dispatch_multiline _ _ _ _ _ Ht);
            reflexivity).
      rewrite E. cbn [fst snd messages multiline List.length].
      rewrite Nat.even_succ, <- Nat.negb_even.
      destruct (Nat.even (List.length rest)); cbn [negb];
        rewrite ?negb_involutive; reflexivity.
    + cbn [chat_requests]. now rewrite chat_requests_app, Hw.
Qed.

Lemma multiline_commands_flip_by_parity_witness :
  exists w,
    cli_loop chat_hello "llama2" true
      [inr "multiline"; inr " MULTILINE "; inr "Multiline"] session0 =
    (w, Awaiting {| messages := messages session0; multiline := true |}) /\
    chat_requests w = [].
Proof.
  apply (multiline_commands_flip_by_parity chat_hello "llama2" true
           [inr "multiline"; inr " MULTILINE "; inr "Multiline"] session0).
  repeat constructor; eexists; split; reflexivity.
Defined.

(** ** Any prompt argument *)

(** With any non-empty prompt argument (and no version flag) the program
    prints its banner and fails with [TypeError] at the call of
    [ask_ollama]: it never contacts the chat client and never reads the
    keyboard, whatever the model and the streaming mode. *)
Theorem any_prompt_argument_raises chat args env p :
  version args = false ->
  prompt args = Some p ->
  p <> "" ->
  cli chat args env = ([Print banner], Uncaught TypeError).
Proof.
  intros Hv Hp Hne. unfold cli, prompt_given. rewrite Hv, Hp.
  now rewrite (proj2 (truthy_true p) Hne).
Qed.

Lemma any_prompt_argument_raises_witness :
  cli chat_hello
    {| prompt := Some "What is Rocq?"; model := "mistral"; no_stream := true;
       version := false |}
    (env_linux [inr "never read"]) = ([Print banner], Uncaught TypeError).
Proof.
  apply (any_prompt_argument_raises chat_hello
           {| prompt := Some "What is Rocq?"; model := "mistral";
              no_stream := true; version := false |}
           (env_linux [inr "never read"]) "What is Rocq?").
  - reflexivity.
  - reflexivity.
  - discriminate.
Defined.
